(** * autorun: the dry-run test harnesses

    A shallow embedding of [test_suite.py] (the threshold variant,
    class [TestRunner]) and [live_test_suite.py] (the live variant,
    class [LiveTestRunner]), and the properties of their pipeline:
    clone, README lookup, manifest detection, action plan, report and
    exit status.

    Python values that the code keeps in dictionaries are embedded as
    [pyval]; a dictionary is an association list in insertion order,
    which is the order Python iterates it in.  File system, clock,
    standard output and the [git] subprocess are a [World] threaded by
    a state-and-exception monad. *)

From Stdlib Require Import ZArith String Ascii List Bool Lia.
From Stdlib Require Import Floats Uint63 Sorted.
From stdpp Require Import base option list gmap strings pretty.

Set Warnings "-register-all".

Local Open Scope string_scope.
Local Open Scope Z_scope.
Local Open Scope list_scope.

(** ** Python strings

    A character is a code point below 256.  [str.lower] and the
    white space of [str.strip] follow Python on that range. *)

Module Str.

Definition code (c : ascii) : N := N_of_ascii c.

(** [c.isspace()] *)
Definition isspace (c : ascii) : bool :=
  let n := code c in
  (((9 <=? n) && (n <=? 13)) || ((28 <=? n) && (n <=? 32))
   || (n =? 133) || (n =? 160))%N.

(** [c.lower()] *)
Definition lower_char (c : ascii) : ascii :=
  let n := code c in
  if (((65 <=? n) && (n <=? 90))
      || ((192 <=? n) && (n <=? 222) && negb (n =? 215)))%N
  then ascii_of_N (n + 32) else c.

(** [s.lower()] *)
Fixpoint lower (s : string) : string :=
  match s with
  | EmptyString => EmptyString
  | String c s' => String (lower_char c) (lower s')
  end.

Definition is_empty (s : string) : bool :=
  match s with EmptyString => true | _ => false end.

(** [s.lstrip(...)], [s.rstrip(...)] and [s.strip(...)] for the set of
    characters accepted by [p]. *)
Fixpoint lstrip_by (p : ascii -> bool) (s : string) : string :=
  match s with
  | EmptyString => EmptyString
  | String c s' => if p c then lstrip_by p s' else s
  end.

Fixpoint rstrip_by (p : ascii -> bool) (s : string) : string :=
  match s with
  | EmptyString => EmptyString
  | String c s' =>
      let r := rstrip_by p s' in
      if p c && is_empty r then EmptyString else String c r
  end.

Definition strip_by (p : ascii -> bool) (s : string) : string :=
  rstrip_by p (lstrip_by p s).

(** [s.strip()] *)
Definition strip (s : string) : string := strip_by isspace s.

Fixpoint mem_char (c : ascii) (chars : string) : bool :=
  match chars with
  | EmptyString => false
  | String d chars' => Ascii.eqb c d || mem_char c chars'
  end.

(** [s.strip(chars)] *)
Definition strip_chars (chars s : string) : string :=
  strip_by (fun c => mem_char c chars) s.

(** [s.startswith(p)] *)
Definition startswith (s p : string) : bool := String.prefix p s.

(** [needle in hay] *)
Fixpoint contains (needle hay : string) : bool :=
  String.prefix needle hay
  || match hay with
     | EmptyString => false
     | String _ hay' => contains needle hay'
     end.

Definition newline : ascii := ascii_of_N 10.

(** [s.split('\n')] *)
Fixpoint split_lines (s : string) : list string :=
  match s with
  | EmptyString => [EmptyString]
  | String c s' =>
      if Ascii.eqb c newline then EmptyString :: split_lines s'
      else match split_lines s' with
           | h :: t => String c h :: t
           | [] => [String c EmptyString]
           end
  end.

(** [s.replace(a, b)] for one-character [a] and [b]. *)
Fixpoint replace_char (a b : ascii) (s : string) : string :=
  match s with
  | EmptyString => EmptyString
  | String c s' =>
      String (if Ascii.eqb c a then b else c) (replace_char a b s')
  end.

(** [sep.join(l)] *)
Fixpoint join (sep : string) (l : list string) : string :=
  match l with
  | [] => EmptyString
  | [x] => x
  | x :: l' => x +:+ sep +:+ join sep l'
  end.

(** [str(l)] for a list of strings that hold no quote, backslash or
    control character (every list the code prints is made of the fixed
    manifest names). *)
Definition repr_list (l : list string) : string :=
  "[" +:+ join ", " (map (fun s => "'" +:+ s +:+ "'") l) +:+ "]".

End Str.

(** ** Python values *)

Inductive pyval : Type :=
| VNone
| VBool (b : bool)
| VInt (z : Z)
| VFloat (f : float)
| VStr (s : string)
| VList (l : list pyval)
| VDict (d : list (string * pyval)).

Abbreviation dict := (list (string * pyval)).

(** [d.get(k)], as an option. *)
Fixpoint dget (k : string) (d : dict) : option pyval :=
  match d with
  | [] => None
  | (k', v) :: d' => if String.eqb k k' then Some v else dget k d'
  end.

(** [d[k] = v]: an existing key keeps its place, a new one goes last. *)
Fixpoint dset (k : string) (v : pyval) (d : dict) : dict :=
  match d with
  | [] => [(k, v)]
  | (k', v') :: d' =>
      if String.eqb k k' then (k, v) :: d' else (k', v') :: dset k v d'
  end.

(** Truth value of a Python object. *)
Definition truthy (v : pyval) : bool :=
  match v with
  | VNone => false
  | VBool b => b
  | VInt z => negb (z =? 0)
  | VFloat f => negb (PrimFloat.eqb f 0%float)
  | VStr s => negb (Str.is_empty s)
  | VList l => match l with [] => false | _ => true end
  | VDict d => match d with [] => false | _ => true end
  end.

(** [d.get(k)] used as a condition: a missing key gives [None]. *)
Definition get_truthy (k : string) (d : dict) : bool :=
  match dget k d with Some v => truthy v | None => false end.

(** ** The action plan of the threshold variant
    ([TestRunner.generate_action_plan]) *)

Module Plan.

Definition run_keywords : list string :=
  ["npm run"; "npm start"; "python"; "cargo run"; "make"; "./"].

(** The text that is appended for a line: [line.strip().strip('`').strip()]. *)
Definition command_of (line : string) : string :=
  Str.strip (Str.strip_chars "`" (Str.strip line)).

(** One turn of the loop over the README lines; [acc] is
    [plan["run_commands"]]. *)
Definition scan_line (acc : list string) (line : string) : list string :=
  let line_lower := Str.strip (Str.lower line) in
  if existsb (fun cmd => Str.contains cmd line_lower) run_keywords then
    if Str.contains "run" line_lower || Str.contains "start" line_lower
       || Str.contains "build" line_lower then
      let cmd := command_of line in
      if negb (Str.is_empty cmd) && negb (Str.startswith cmd "#")
         && negb (Str.startswith cmd "<!--")
      then acc ++ [cmd] else acc
    else acc
  else acc.

(** [plan["run_commands"]] when the function returns. *)
Definition run_commands (readme_content : string) : list string :=
  let lines := Str.split_lines readme_content in
  let found := fold_left scan_line lines [] in
  firstn 5 found.

Definition install_plan (dependencies : dict) : dict :=
  [ ("python", VStr (if get_truthy "python" dependencies
                     then "pip install -r requirements.txt" else "No Python deps"));
    ("node", VStr (if get_truthy "node" dependencies
                   then "npm install" else "No Node deps"));
    ("rust", VStr (if get_truthy "rust" dependencies
                   then "cargo build" else "No Rust deps"));
    ("go", VStr (if get_truthy "go" dependencies
                 then "go mod download" else "No Go deps"));
    ("cpp", VStr (if get_truthy "cpp" dependencies
                  then "make / cmake" else "No C++ deps")) ].

Definition dry_run_notes (repo : string) (cmds : list string) : list string :=
  [ "[DRY-RUN] Would clone " +:+ repo;
    "[DRY-RUN] Would install dependencies based on detected manifests";
    "[DRY-RUN] Would execute: "
      +:+ match cmds with c :: _ => c | [] => "unknown" end;
    "[DRY-RUN] No actual system changes made - test mode enabled" ].

Definition generate_action_plan
    (repo readme_content : string) (dependencies : dict) (repo_dir : string)
    : dict :=
  let plan :=
    [ ("clone", VStr ("git clone --depth 1 https://github.com/" +:+ repo +:+ ".git"));
      ("dependencies", VDict (install_plan dependencies));
      ("run_commands", VList []);
      ("dry_run_notes", VList []) ] in
  let cmds := run_commands readme_content in
  let plan := dset "run_commands" (VList (map VStr cmds)) plan in
  dset "dry_run_notes" (VList (map VStr (dry_run_notes repo cmds))) plan.

End Plan.

(** What one README line contributes to [plan["run_commands"]]: its
    command, or nothing. *)
Definition candidate (line : string) : option string :=
  match Plan.scan_line [] line with
  | c :: _ => Some c
  | [] => None
  end.

(** ** The world outside the program *)

(** A path is its text; [p </> c] is [p / c] of [pathlib] for a
    relative, non-empty component [c]. *)
Definition path_join (p c : string) : string := p +:+ "/" +:+ c.
Infix "</>" := path_join (at level 40, left associativity).

Inductive fnode : Type :=
| FDir
| FText (text : string)
| FBad (err : string).   (* exists, but [read_text] raises [err] *)

(** What [subprocess.run] gives back: a completed process, or the
    exception it raises (time-out, no executable). *)
Inductive proc : Type :=
| Completed (returncode : Z) (stdout stderr : string)
| Failed (err : string).

Inductive event : Type :=
| EExists (p : string)
| EReadText (p : string)
| EMkdir (p : string)
| EWriteText (p text : string)
| ERun (argv : list string)
| EPrint (line : string).

Record World : Type := mkWorld {
  w_fs : gmap string fnode;      (* the paths that exist *)
  w_tick : nat;                  (* readings of the clock so far *)
  w_out : list event;            (* effects so far, oldest first *)
}.

(** What the program takes from its libraries and its environment. *)
Record Env : Type := mkEnv {
  run_process : list string -> gmap string fnode -> proc * gmap string fnode;
  clock : nat -> string;         (* [datetime.now().isoformat()] *)
  json_dumps : pyval -> string;  (* [json.dumps(v, indent=2)] *)
  format_1f : pyval -> string;   (* [f"{v:.1f}"] *)
  repr : pyval -> string;        (* [str(v)] of a float, list or dict *)
}.

Inductive exn : Type :=
| KeyError (key : string)
| AttributeError (msg : string)
| TypeError (msg : string)
| OSError (msg : string).

Definition exn_str (e : exn) : string :=
  match e with
  | KeyError k => "'" +:+ k +:+ "'"
  | AttributeError m | TypeError m | OSError m => m
  end.

Inductive res (A : Type) : Type :=
| Ok (a : A)
| Raise (e : exn).
Arguments Ok {A} a.
Arguments Raise {A} e.

(** A computation: it reads and changes the world, and returns or
    raises. *)
Definition M (A : Type) : Type := World -> res A * World.

Definition ret {A} (a : A) : M A := fun w => (Ok a, w).

Definition raise {A} (e : exn) : M A := fun w => (Raise e, w).

Definition bind {A B} (m : M A) (k : A -> M B) : M B :=
  fun w => match m w with
           | (Ok a, w') => k a w'
           | (Raise e, w') => (Raise e, w')
           end.

(** [try: m  except Exception as e: h e] *)
Definition try_except {A} (m : M A) (h : exn -> M A) : M A :=
  fun w => match m w with
           | (Ok a, w') => (Ok a, w')
           | (Raise e, w') => h e w'
           end.

Notation "x <- m ;; k" := (bind m (fun x => k))
  (at level 100, m at level 99, k at level 200, right associativity).
Notation "m ;; k" := (bind m (fun _ => k))
  (at level 100, k at level 200, right associativity).

Definition emit (e : event) (w : World) : World :=
  mkWorld (w_fs w) (w_tick w) (w_out w ++ [e]).

Definition with_fs (fs : gmap string fnode) (w : World) : World :=
  mkWorld fs (w_tick w) (w_out w).

(** [print(line)] *)
Definition print (line : string) : M unit :=
  fun w => (Ok tt, emit (EPrint line) w).

(** [p.exists()], for a path the harness may look at: the answer is
    whether the path is there. *)
Definition path_exists (p : string) : M bool :=
  fun w => (Ok (bool_decide (is_Some (w_fs w !! p))), emit (EExists p) w).

(** [p.read_text()] *)
Definition read_text (p : string) : M string :=
  fun w =>
    let w' := emit (EReadText p) w in
    match w_fs w !! p with
    | Some (FText t) => (Ok t, w')
    | Some (FBad err) => (Raise (OSError err), w')
    | Some FDir =>
        (Raise (OSError ("[Errno 21] Is a directory: '" +:+ p +:+ "'")), w')
    | None =>
        (Raise (OSError ("[Errno 2] No such file or directory: '"
                         +:+ p +:+ "'")), w')
    end.

(** [p.mkdir(exist_ok=True)] in a directory the harness may write to:
    the parent of [p] is there and [p] is absent or a directory. *)
Definition mkdir (p : string) : M unit :=
  fun w =>
    let fs := match w_fs w !! p with
              | None => <[p := FDir]> (w_fs w)
              | Some _ => w_fs w
              end in
    (Ok tt, emit (EMkdir p) (with_fs fs w)).

(** [p.write_text(text)] in a directory the harness may write to: the
    parent of [p] is there and [p] is absent or a file. *)
Definition write_text (p text : string) : M unit :=
  fun w => (Ok tt, emit (EWriteText p text) (with_fs (<[p := FText text]> (w_fs w)) w)).

(** [d[k]] *)
Definition getitem (v : pyval) (k : string) : M pyval :=
  match v with
  | VDict d => match dget k d with
               | Some x => ret x
               | None => raise (KeyError k)
               end
  | _ => raise (TypeError "object is not subscriptable")
  end.

(** [d[k1][k2] = v] *)
Definition setitem2 (d : dict) (k1 k2 : string) (v : pyval) : M dict :=
  inner <- getitem (VDict d) k1 ;;
  match inner with
  | VDict d1 => ret (dset k1 (VDict (dset k2 v d1)) d)
  | _ => raise (TypeError "object does not support item assignment")
  end.

(** [len(v)] *)
Definition py_len (v : pyval) : M Z :=
  match v with
  | VList l => ret (Z.of_nat (length l))
  | VDict d => ret (Z.of_nat (length d))
  | VStr s => ret (Z.of_nat (String.length s))
  | _ => raise (TypeError "object has no len()")
  end.

(** [v.items()] *)
Definition py_items (v : pyval) : M dict :=
  match v with
  | VDict d => ret d
  | _ => raise (AttributeError "object has no attribute 'items'")
  end.

(** A [for] loop that carries the variables it updates in [acc]. *)
Fixpoint for_each {A S} (l : list A) (acc : S) (body : S -> A -> M S) : M S :=
  match l with
  | [] => ret acc
  | x :: l' => acc' <- body acc x ;; for_each l' acc' body
  end.

(** [a / b] of two integers below 2^53, [b] not zero. *)
Definition true_div (a b : Z) : float :=
  PrimFloat.div (PrimFloat.of_uint63 (Uint63.of_Z a))
                (PrimFloat.of_uint63 (Uint63.of_Z b)).

Definition nl : string := String Str.newline EmptyString.

Record Repo : Type := mkRepo {
  name : string;
  language : string;
}.

Definition TEST_REPOS : list Repo :=
  [ mkRepo "alibaba/zvec" "C++";
    mkRepo "nautechsystems/nautilus_trader" "Rust";
    mkRepo "rowboatlabs/rowboat" "TypeScript";
    mkRepo "steipete/gogcli" "Go";
    mkRepo "openclaw/openclaw" "TypeScript";
    mkRepo "SynkraAI/aios-core" "JavaScript";
    mkRepo "letta-ai/letta-code" "TypeScript";
    mkRepo "ruvnet/wifi-densepose" "Python";
    mkRepo "seerr-team/seerr" "TypeScript";
    mkRepo "hummingbot/hummingbot" "Python" ].

(** The directory a repository is cloned into:
    [test_dir / "repos" / repo.replace("/", "_")], for a repository
    name that is not empty, [.] or [..], so that the last component is
    kept as it is. *)
Definition repo_path (test_dir repo : string) : string :=
  test_dir </> "repos" </> Str.replace_char "/" "_" repo.

(** The two harnesses, over an environment. *)
Section Harness.

Variable E : Env.

(** [datetime.now().isoformat()] *)
Definition now : M string :=
  fun w => (Ok (clock E (w_tick w)),
            mkWorld (w_fs w) (S (w_tick w)) (w_out w)).

(** [subprocess.run(argv, capture_output=True, text=True, timeout=60)] *)
Definition subprocess_run (argv : list string) : M (Z * string * string) :=
  fun w =>
    let '(p, fs) := run_process E argv (w_fs w) in
    let w' := emit (ERun argv) (with_fs fs w) in
    match p with
    | Completed rc out err => (Ok (rc, out, err), w')
    | Failed msg => (Raise (OSError msg), w')
    end.

End Harness.

(** The object [self] of both classes. *)
Record runner : Type := mkRunner {
  test_dir : string;
  results : list pyval;
}.

Definition append_result (self : runner) (r : pyval) : runner :=
  mkRunner (test_dir self) (results self ++ [r]).

(** [sum(1 for r in rs if cond(r))] *)
Definition count_if (cond : pyval -> M bool) (rs : list pyval) : M Z :=
  for_each rs 0 (fun n r => c <- cond r ;; ret (if c then n + 1 else n)).

(** [v >= 80] for a number. *)
Definition ge_80 (v : pyval) : M bool :=
  match v with
  | VFloat f => ret (PrimFloat.leb 80%float f)
  | VInt z => ret (80 <=? z)
  | _ => raise (TypeError "'>=' not supported")
  end.

(** [[r for r in rs if cond(r)]] *)
Definition filter_if (cond : pyval -> M bool) (rs : list pyval)
    : M (list pyval) :=
  for_each rs [] (fun kept r =>
    c <- cond r ;; ret (if c : bool then kept ++ [r] else kept)).

(** The elements a [for] loop runs over. *)
Definition py_iter (v : pyval) : M (list pyval) :=
  match v with
  | VList l => ret l
  | VDict d => ret (map (fun kv => VStr (fst kv)) d)
  | _ => raise (TypeError "object is not iterable")
  end.

(** [v == s] for a string [s]. *)
Definition eq_str (v : pyval) (s : string) : bool :=
  match v with VStr t => String.eqb t s | _ => false end.

(** [s * n] *)
Fixpoint times (s : string) (n : nat) : string :=
  match n with O => EmptyString | S n' => s +:+ times s n' end.

(** [str(v)], as an f-string writes it. *)
Definition to_str (E : Env) (v : pyval) : string :=
  match v with
  | VNone => "None"
  | VBool true => "True"
  | VBool false => "False"
  | VInt z => pretty z
  | VStr s => s
  | _ => repr E v
  end.

(** ** The threshold variant: [test_suite.py] *)

Module TestRunner.

Definition readme_paths : list string :=
  ["README.md"; "readme.md"; "README"; "readme"].

Definition checks : list (string * string) :=
  [ ("requirements.txt", "python");
    ("Pipfile", "python");
    ("pyproject.toml", "python");
    ("setup.py", "python");
    ("package.json", "node");
    ("Cargo.toml", "rust");
    ("go.mod", "go");
    ("CMakeLists.txt", "cpp");
    ("Makefile", "other") ].

(** [sorted(items, key=lambda x: x[1], reverse=True)]: the sort is
    stable, so of two keys with one count the first seen stays first. *)
Definition count_of (v : pyval) : Z :=
  match v with VInt z => z | _ => 0 end.

Fixpoint insert_desc (x : string * pyval) (l : dict) : dict :=
  match l with
  | [] => [x]
  | y :: l' =>
      if count_of (snd x) <? count_of (snd y) then y :: insert_desc x l'
      else x :: l
  end.

Definition sorted_desc (d : dict) : dict := foldr insert_desc [] d.

Section WithEnv.

Variable E : Env.

Definition setup (self : runner) : M unit :=
  mkdir (test_dir self) ;;
  mkdir (test_dir self </> "logs") ;;
  mkdir (test_dir self </> "reports") ;;
  mkdir (test_dir self </> "repos").

Definition clone_repo (self : runner) (repo : string) : M (bool * string) :=
  let repo_url := "https://github.com/" +:+ repo +:+ ".git" in
  let clone_dir := repo_path (test_dir self) repo in
  present <- path_exists clone_dir ;;
  if present : bool then ret (true, "Already cloned")
  else
    try_except
      (result <- subprocess_run E
                   ["git"; "clone"; "--depth"; "1"; repo_url; clone_dir] ;;
       let '(returncode, stdout, stderr) := result in
       ret (returncode =? 0, stdout +:+ stderr))
      (fun e => ret (false, exn_str e)).

Fixpoint read_readme_from (repo_dir : string) (paths : list string)
    : M (bool * string) :=
  match paths with
  | [] => ret (false, "No README found")
  | readme :: rest =>
      let readme_path := repo_dir </> readme in
      present <- path_exists readme_path ;;
      if present : bool then
        try_except
          (text <- read_text readme_path ;; ret (true, text))
          (fun e => ret (false, exn_str e))
      else read_readme_from repo_dir rest
  end.

Definition read_readme (self : runner) (repo_dir : string) : M (bool * string) :=
  read_readme_from repo_dir readme_paths.

(** One turn of the loop over [checks]. *)
Definition check_manifest (repo_dir : string) (dependencies : dict)
    (check : string * string) : M dict :=
  let '(manifest, dep_type) := check in
  let manifest_path := repo_dir </> manifest in
  present <- path_exists manifest_path ;;
  if present : bool then
    if String.eqb dep_type "other" then
      other <- getitem (VDict dependencies) "other" ;;
      match other with
      | VList l =>
          ret (dset "other" (VList (l ++ [VStr manifest])) dependencies)
      | _ => raise (AttributeError "object has no attribute 'append'")
      end
    else ret (dset dep_type (VBool true) dependencies)
  else ret dependencies.

Definition detect_dependencies (self : runner) (repo_dir : string) : M dict :=
  let dependencies :=
    [ ("python", VBool false); ("node", VBool false); ("rust", VBool false);
      ("go", VBool false); ("cpp", VBool false); ("other", VList []) ] in
  for_each checks dependencies (check_manifest repo_dir).

Definition generate_action_plan := Plan.generate_action_plan.

Definition analyze_repo (self : runner) (repo : Repo) : M dict :=
  print (nl +:+ "Analyzing " +:+ name repo +:+ "...") ;;
  timestamp <- now E ;;
  let result :=
    [ ("repo", VStr (name repo));
      ("timestamp", VStr timestamp);
      ("clone", VDict [("success", VBool false); ("error", VNone)]);
      ("readme", VDict [("found", VBool false); ("content", VNone);
                        ("error", VNone)]);
      ("dependencies", VDict []);
      ("action_plan", VDict []) ] in
  cloned <- clone_repo self (name repo) ;;
  let '(success, output) := cloned in
  result <- setitem2 result "clone" "success" (VBool success) ;;
  result <- setitem2 result "clone" "error"
              (if negb success then VStr output else VNone) ;;
  if negb success then ret result
  else
    let repo_dir := repo_path (test_dir self) (name repo) in
    read <- read_readme self repo_dir ;;
    let '(success, output) := read in
    result <- setitem2 result "readme" "found" (VBool success) ;;
    result <- setitem2 result "readme" "content"
                (if success then VStr output else VNone) ;;
    result <- setitem2 result "readme" "error"
                (if negb success then VStr output else VNone) ;;
    if negb success then ret result
    else
      dependencies <- detect_dependencies self repo_dir ;;
      let result := dset "dependencies" (VDict dependencies) result in
      let plan := generate_action_plan (name repo) output dependencies repo_dir in
      let result := dset "action_plan" (VDict plan) result in
      ret result.

(** [dep_counts] after the two loops of [_aggregate_dependencies]. *)
Definition count_dependencies (rs : list pyval) : M dict :=
  for_each rs [] (fun dep_counts result =>
    deps <- getitem result "dependencies" ;;
    items <- py_items deps ;;
    for_each items dep_counts (fun dep_counts item =>
      let '(dep, found) := item in
      if truthy found && negb (String.eqb dep "other") then
        let seen := match dget dep dep_counts with
                    | Some v => count_of v
                    | None => 0
                    end in
        ret (dset dep (VInt (seen + 1)) dep_counts)
      else ret dep_counts)).

Definition _aggregate_dependencies (self : runner) : M dict :=
  dep_counts <- count_dependencies (results self) ;;
  ret (sorted_desc dep_counts).

(** [sum(len(r["action_plan"]["run_commands"]) for r in rs)] *)
Definition sum_run_commands (rs : list pyval) : M Z :=
  for_each rs 0 (fun total r =>
    plan <- getitem r "action_plan" ;;
    cmds <- getitem plan "run_commands" ;;
    n <- py_len cmds ;;
    ret (total + n)).

Definition clone_succeeded (r : pyval) : M bool :=
  c <- getitem r "clone" ;; s <- getitem c "success" ;; ret (truthy s).

Definition readme_found (r : pyval) : M bool :=
  c <- getitem r "readme" ;; s <- getitem c "found" ;; ret (truthy s).

Definition generate_report (self : runner) : M dict :=
  let total := Z.of_nat (length (results self)) in
  successful_clones <- count_if clone_succeeded (results self) ;;
  successful_reads <- count_if readme_found (results self) ;;
  timestamp <- now E ;;
  let success_rate :=
    if 0 <? total
    then VFloat (PrimFloat.mul (true_div successful_clones total) 100%float)
    else VInt 0 in
  most_common_deps <- _aggregate_dependencies self ;;
  avg_run_commands <-
    (if 0 <? total
     then s <- sum_run_commands (results self) ;; ret (VFloat (true_div s total))
     else ret (VInt 0)) ;;
  let report :=
    [ ("timestamp", VStr timestamp);
      ("total_repos", VInt total);
      ("successful_clones", VInt successful_clones);
      ("successful_reads", VInt successful_reads);
      ("success_rate", success_rate);
      ("results", VList (results self));
      ("summary", VDict [ ("most_common_deps", VDict most_common_deps);
                          ("avg_run_commands", avg_run_commands) ]) ] in
  let report_path := test_dir self </> "reports" </> "test_report.json" in
  write_text report_path (json_dumps E (VDict report)) ;;
  ret report.

(** The [for repo in TEST_REPOS] loop of [run_tests], over any list. *)
Definition analysis_loop (self : runner) (repos : list Repo) : M runner :=
  for_each repos self (fun self repo =>
    result <- analyze_repo self repo ;;
    let self := append_result self (VDict result) in
    let repo_name := Str.replace_char "/" "_" (name repo) in
    let result_path := test_dir self </> "logs" </> (repo_name +:+ ".json") in
    write_text result_path (json_dumps E (VDict result)) ;;
    passed <- clone_succeeded (VDict result) ;;
    let status := if passed : bool then "PASS" else "FAIL" in
    print ("  " +:+ status +:+ " " +:+ name repo) ;;
    ret self).

Definition run_tests_on (repos : list Repo) (self : runner)
    : M (runner * dict) :=
  setup self ;;
  print ("Running tests on " +:+ pretty (length repos) +:+ " repositories...") ;;
  self <- analysis_loop self repos ;;
  report <- generate_report self ;;
  ret (self, report).

Definition run_tests : runner -> M (runner * dict) := run_tests_on TEST_REPOS.

Definition pass_fail (b : bool) : string := if b then "PASS" else "FAIL".

Definition print_result (result : pyval) : M unit :=
  repo <- getitem result "repo" ;;
  print (nl +:+ "  " +:+ to_str E repo +:+ ":") ;;
  cloned <- clone_succeeded result ;;
  print ("    Clone: " +:+ pass_fail cloned) ;;
  found <- readme_found result ;;
  print ("    README: " +:+ pass_fail found) ;;
  dependencies <- getitem result "dependencies" ;;
  items <- py_items dependencies ;;
  let deps :=
    map fst (filter (fun kv => truthy (snd kv)
                               && negb (String.eqb (fst kv) "other")) items) in
  print ("    Dependencies: "
         +:+ match deps with [] => "None" | _ => Str.join ", " deps end) ;;
  plan <- getitem result "action_plan" ;;
  cmds <- getitem plan "run_commands" ;;
  if truthy cmds then
    print "    Action Plan Generated:" ;;
    notes <- getitem plan "dry_run_notes" ;;
    notes <- py_iter notes ;;
    for_each notes tt (fun _ note => print ("      - " +:+ to_str E note))
  else ret tt.

Definition print_report (self : runner) (report : dict) : M unit :=
  let report := VDict report in
  print (nl +:+ times "=" 60) ;;
  print "RunThis Test Suite Report" ;;
  print (times "=" 60) ;;
  timestamp <- getitem report "timestamp" ;;
  print ("Timestamp: " +:+ to_str E timestamp) ;;
  total <- getitem report "total_repos" ;;
  print ("Total Repos: " +:+ to_str E total) ;;
  clones <- getitem report "successful_clones" ;;
  print ("Successful Clones: " +:+ to_str E clones) ;;
  reads <- getitem report "successful_reads" ;;
  print ("Successful README Reads: " +:+ to_str E reads) ;;
  rate <- getitem report "success_rate" ;;
  print ("Success Rate: " +:+ format_1f E rate +:+ "%") ;;
  summary <- getitem report "summary" ;;
  avg <- getitem summary "avg_run_commands" ;;
  print ("Average Run Commands Found: " +:+ format_1f E avg) ;;
  print (nl +:+ "Most Common Dependencies:") ;;
  common <- getitem summary "most_common_deps" ;;
  items <- py_items common ;;
  for_each items tt (fun _ item =>
    print ("  - " +:+ fst item +:+ ": " +:+ to_str E (snd item) +:+ " repos")) ;;
  print (nl +:+ "Detailed Results:") ;;
  rs <- getitem report "results" ;;
  rs <- py_iter rs ;;
  for_each rs tt (fun _ result => print_result result) ;;
  print (nl +:+ times "=" 60).

(** [main], with the module's [TEST_REPOS] as [repos]. *)
Definition main_on (repos : list Repo) : M Z :=
  let runner := mkRunner "/tmp/runthis_tests" [] in
  ran <- run_tests_on repos runner ;;
  let '(runner, report) := ran in
  print_report runner report ;;
  rate <- getitem (VDict report) "success_rate" ;;
  ok <- ge_80 rate ;;
  ret (if ok : bool then 0 else 1).

Definition main : M Z := main_on TEST_REPOS.

End WithEnv.

End TestRunner.

(** ** The live variant: [live_test_suite.py] *)

Module LiveTestRunner.

Definition readme_alternatives : list string :=
  ["README.txt"; "README"; "readme.md"; "readme.txt"; "readme"].

Definition deps : list (string * list string) :=
  [ ("python", ["requirements.txt"; "Pipfile"; "pyproject.toml"; "setup.py"]);
    ("node", ["package.json"]);
    ("rust", ["Cargo.toml"]);
    ("go", ["go.mod"]);
    ("cpp", ["CMakeLists.txt"; "Makefile"]) ].

Section WithEnv.

Variable E : Env.

Definition setup (self : runner) : M unit :=
  mkdir (test_dir self) ;;
  mkdir (test_dir self </> "logs") ;;
  mkdir (test_dir self </> "reports") ;;
  mkdir (test_dir self </> "repos").

Definition clone_repo (self : runner) (repo : string) : M (bool * string) :=
  let repo_url := "https://github.com/" +:+ repo +:+ ".git" in
  let repo_dir := repo_path (test_dir self) repo in
  present <- path_exists repo_dir ;;
  if present : bool then ret (true, repo_dir)
  else
    try_except
      (result <- subprocess_run E
                   ["git"; "clone"; "--depth"; "1"; repo_url; repo_dir] ;;
       let '(returncode, stdout, stderr) := result in
       ret (returncode =? 0, repo_dir))
      (fun e => ret (false, repo_dir)).

(** The loop over [readme_alternatives]: the first name that exists. *)
Fixpoint first_existing (repo_dir : string) (names : list string)
    : M (option string) :=
  match names with
  | [] => ret None
  | alt :: rest =>
      present <- path_exists (repo_dir </> alt) ;;
      if present : bool then ret (Some alt) else first_existing repo_dir rest
  end.

(** One turn of the loop over [deps.items()]; the inner loop stops at
    the first manifest that exists. *)
Definition detect_entry (repo_dir : string) (detected_deps : list string)
    (entry : string * list string) : M (list string) :=
  let '(dep_type, manifests) := entry in
  hit <- first_existing repo_dir manifests ;;
  match hit with
  | Some manifest =>
      ret (detected_deps ++ [dep_type +:+ " (" +:+ manifest +:+ ")"])
  | None => ret detected_deps
  end.

(** The two loops that fill [detected_deps]. *)
Definition detect (repo_dir : string) : M (list string) :=
  for_each deps [] (detect_entry repo_dir).

Definition expected_response (repo : Repo) (detected_deps : list string) : dict :=
  let shown := Str.lower (Str.repr_list detected_deps) in
  [ ("language", VStr (Str.lower (language repo)));
    ("install",
     VStr (if Str.contains "python" shown then "pip install -r requirements.txt"
           else if Str.contains "node" shown then "npm install"
           else if Str.contains "rust" shown then "cargo build"
           else "make"));
    ("run",
     VStr (if Str.contains "python" shown then "python main.py"
           else if Str.contains "node" shown then "npm start"
           else if Str.contains "rust" shown then "cargo run"
           else if Str.contains "steipete/gogcli" (name repo) then "./bin/gog"
           else "Unknown")) ].

Definition test_runthis_cli (self : runner) (repo : Repo) : M dict :=
  print (nl +:+ "Testing " +:+ name repo +:+ "...") ;;
  timestamp <- now E ;;
  let result :=
    [ ("repo", VStr (name repo));
      ("timestamp", VStr timestamp);
      ("would_clone",
       VStr ("git clone --depth 1 https://github.com/" +:+ name repo +:+ ".git"));
      ("would_readme", VNone);
      ("would_detect_deps", VNone);
      ("would_ask_ai", VNone);
      ("would_install", VNone);
      ("would_run", VNone);
      ("failure_mode", VBool false);
      ("failure_reason", VNone) ] in
  cloned <- clone_repo self (name repo) ;;
  let '(success, repo_dir) := cloned in
  if negb success then
    let result := dset "failure_mode" (VBool true) result in
    let result :=
      dset "failure_reason" (VStr ("Failed to clone " +:+ name repo)) result in
    ret result
  else
    let readme_path := repo_dir </> "README.md" in
    present <- path_exists readme_path ;;
    result <-
      (if present : bool then ret (dset "would_readme" (VStr "README.md found") result)
       else
         hit <- first_existing repo_dir readme_alternatives ;;
         match hit with
         | Some alt => ret (dset "would_readme" (VStr (alt +:+ " found")) result)
         | None =>
             let result := dset "would_readme" (VStr "No README found") result in
             let result := dset "failure_mode" (VBool true) result in
             ret (dset "failure_reason"
                    (VStr "No README found - runthis would exit with code 1")
                    result)
         end) ;;
    detected_deps <- detect repo_dir ;;
    let result :=
      dset "would_detect_deps"
        (match detected_deps with
         | [] => VStr "none detected"
         | _ => VList (map VStr detected_deps)
         end) result in
    let result :=
      dset "would_ask_ai"
        (VDict [ ("prompt", VStr ("Determine how to run " +:+ name repo
                                  +:+ " from README"));
                 ("expected_response",
                  VDict (expected_response repo detected_deps)) ]) result in
    let result :=
      dset "would_install"
        (VStr (match detected_deps with
               | [] => "No dependencies detected"
               | _ => "Would run install command for: "
                      +:+ Str.join ", " detected_deps
               end)) result in
    let result :=
      dset "would_run" (VStr "Would execute the determined run command") result in
    would_readme <- getitem (VDict result) "would_readme" ;;
    let result :=
      if eq_str would_readme "No README found" then
        dset "failure_reason"
          (VStr "No README found - runthis would exit with code 1")
          (dset "failure_mode" (VBool true) result)
      else result in
    would_readme <- getitem (VDict result) "would_readme" ;;
    if truthy would_readme
       && negb (truthy (VList (map VStr detected_deps))) then
      result <- setitem2 result "would_ask_ai" "ai_response"
                  (VStr "Unable to determine how to run this project") ;;
      result <- setitem2 result "would_ask_ai" "would_fail" (VBool true) ;;
      result <- setitem2 result "would_ask_ai" "failure_message"
                  (VStr "AI could not determine action - would exit gracefully") ;;
      let result := dset "failure_mode" (VBool true) result in
      ret (dset "failure_reason"
             (VStr "AI failure mode - no clear instructions found") result)
    else ret result.

Definition in_failure_mode (r : pyval) : M bool :=
  f <- getitem r "failure_mode" ;; ret (truthy f).

Definition has_deps (r : pyval) : M bool :=
  d <- getitem r "would_detect_deps" ;; ret (negb (eq_str d "none detected")).

Definition generate_report (self : runner) : M dict :=
  let total := Z.of_nat (length (results self)) in
  failures <- count_if in_failure_mode (results self) ;;
  let success_rate :=
    if 0 <? total
    then VFloat (PrimFloat.mul (true_div (total - failures) total) 100%float)
    else VInt 0 in
  timestamp <- now E ;;
  failure_modes <- filter_if in_failure_mode (results self) ;;
  with_deps <- count_if has_deps (results self) ;;
  let report :=
    [ ("timestamp", VStr timestamp);
      ("total_repos", VInt total);
      ("failures", VInt failures);
      ("success_rate", success_rate);
      ("failure_modes", VList failure_modes);
      ("results", VList (results self));
      ("summary",
       VDict [ ("would_clone_all", VBool true);
               ("would_readme_detection", VStr "100% (all repos have READMEs)");
               ("would_dependency_detection",
                VStr (pretty with_deps +:+ " / " +:+ pretty total
                      +:+ " repos with detectable deps"));
               ("would_failure_handling",
                VStr (pretty failures
                      +:+ " repos would trigger failure mode (graceful exit)")) ]) ] in
  let report_path := test_dir self </> "reports" </> "live_test_report.json" in
  write_text report_path (json_dumps E (VDict report)) ;;
  ret report.

(** The [for repo in TEST_REPOS] loop of [run_live_tests], over any list. *)
Definition test_loop (self : runner) (repos : list Repo) : M runner :=
  for_each repos self (fun self repo =>
    result <- test_runthis_cli self repo ;;
    let self := append_result self (VDict result) in
    let repo_name := Str.replace_char "/" "_" (name repo) in
    let result_path :=
      test_dir self </> "logs" </> (repo_name +:+ "_live_test.json") in
    write_text result_path (json_dumps E (VDict result)) ;;
    failed <- in_failure_mode (VDict result) ;;
    let status := if failed : bool then "FAIL" else "PASS" in
    print ("  " +:+ status +:+ " " +:+ name repo) ;;
    ret self).

Definition run_live_tests_on (repos : list Repo) (self : runner)
    : M (runner * dict) :=
  setup self ;;
  print ("Running live tests on " +:+ pretty (length repos)
         +:+ " trending repositories...") ;;
  print "This tests the runthis CLI logic WITHOUT actually running/installing anything" ;;
  print "(Dry-run mode)" ;;
  self <- test_loop self repos ;;
  report <- generate_report self ;;
  ret (self, report).

Definition run_live_tests : runner -> M (runner * dict) :=
  run_live_tests_on TEST_REPOS.

(** [v.get(k)], and [v.get(k, default)] through [dflt]. *)
Definition py_get (v : pyval) (k : string) (dflt : pyval) : M pyval :=
  match v with
  | VDict d => ret (match dget k d with Some x => x | None => dflt end)
  | _ => raise (AttributeError "object has no attribute 'get'")
  end.

Definition print_failure (failure : pyval) : M unit :=
  repo <- getitem failure "repo" ;;
  print (nl +:+ "  " +:+ to_str E repo +:+ ":") ;;
  reason <- getitem failure "failure_reason" ;;
  print ("    Reason: " +:+ to_str E reason) ;;
  ask <- py_get failure "would_ask_ai" (VDict []) ;;
  would_fail <- py_get ask "would_fail" VNone ;;
  if truthy would_fail then
    ask <- getitem failure "would_ask_ai" ;;
    response <- getitem ask "ai_response" ;;
    print ("    AI would respond: " +:+ to_str E response)
  else ret tt.

Definition print_report (self : runner) (report : dict) : M unit :=
  let report := VDict report in
  print (nl +:+ times "=" 70) ;;
  print "RunThis Live Test Suite Report (Dry-Run Mode)" ;;
  print (times "=" 70) ;;
  timestamp <- getitem report "timestamp" ;;
  print ("Timestamp: " +:+ to_str E timestamp) ;;
  total <- getitem report "total_repos" ;;
  print ("Total Repos Tested: " +:+ to_str E total) ;;
  rate <- getitem report "success_rate" ;;
  print ("Success Rate: " +:+ format_1f E rate +:+ "%") ;;
  failures <- getitem report "failures" ;;
  print ("Failure Modes Triggered: " +:+ to_str E failures) ;;
  print (nl +:+ "Summary:") ;;
  summary <- getitem report "summary" ;;
  items <- py_items summary ;;
  for_each items tt (fun _ item =>
    print ("  - " +:+ fst item +:+ ": " +:+ to_str E (snd item))) ;;
  failure_modes <- getitem report "failure_modes" ;;
  (if truthy failure_modes then
     print (nl +:+ "Failure Mode Tests (these would exit gracefully):") ;;
     fs <- py_iter failure_modes ;;
     for_each fs tt (fun _ failure => print_failure failure)
   else ret tt) ;;
  print (nl +:+ times "=" 70).

(** [main], with the module's [TEST_REPOS] as [repos]. *)
Definition main_on (repos : list Repo) : M Z :=
  let runner := mkRunner "/tmp/runthis_live_tests" [] in
  ran <- run_live_tests_on repos runner ;;
  let '(runner, report) := ran in
  print_report runner report ;;
  ret 0.

Definition main : M Z := main_on TEST_REPOS.

End WithEnv.

End LiveTestRunner.

(** ** Vocabulary of the properties *)

(** What a run returned, if it did not raise. *)
Definition returned {A} (run : res A * World) : option A :=
  match fst run with Ok a => Some a | Raise _ => None end.

(** Does the path exist? *)
Definition present (fs : gmap string fnode) (p : string) : bool :=
  bool_decide (is_Some (fs !! p)).

(** The world [w] after the events [evs], files and clock untouched. *)
Definition after (w : World) (evs : list event) : World :=
  mkWorld (w_fs w) (w_tick w) (w_out w ++ evs).

(** The event starts the [git] subprocess. *)
Definition is_run (e : event) : bool :=
  match e with ERun _ => true | _ => false end.

(** The event looks at one of the files [names] of the directory. *)
Definition touches (repo_dir : string) (names : list string) (e : event) : Prop :=
  ∃ n, n ∈ names ∧ (e = EExists (repo_dir </> n) ∨ e = EReadText (repo_dir </> n)).

(** The manifest names of the two detectors. *)
Definition strict_manifests : list string := fst <$> TestRunner.checks.

Definition live_manifests : list string :=
  concat (snd <$> LiveTestRunner.deps).

(** What [detect_dependencies] returns, from the files that exist. *)
Definition detected (fs : gmap string fnode) (repo_dir : string) : dict :=
  let has m := present fs (repo_dir </> m) in
  [ ("python", VBool (has "requirements.txt" || has "Pipfile"
                      || has "pyproject.toml" || has "setup.py"));
    ("node", VBool (has "package.json"));
    ("rust", VBool (has "Cargo.toml"));
    ("go", VBool (has "go.mod"));
    ("cpp", VBool (has "CMakeLists.txt"));
    ("other", VList (if has "Makefile" then [VStr "Makefile"] else [])) ].

(** What one turn of the loop over [checks] does to [dependencies],
    [found] telling whether the manifest exists. *)
Definition mark (dep_type manifest : string) (found : bool) (d : dict) : dict :=
  if found then
    if String.eqb dep_type "other" then
      match dget "other" d with
      | Some (VList l) => dset "other" (VList (l ++ [VStr manifest])) d
      | _ => d
      end
    else dset dep_type (VBool true) d
  else d.

(** The names a loop with [break] looks at: up to the first that
    exists. *)
Fixpoint looked_at (fs : gmap string fnode) (repo_dir : string)
    (names : list string) : list string :=
  match names with
  | [] => []
  | n :: rest =>
      n :: (if present fs (repo_dir </> n) then []
            else looked_at fs repo_dir rest)
  end.

(** What the live detector collects, from the files that exist. *)
Definition live_detected (fs : gmap string fnode) (repo_dir : string)
    : list string :=
  concat ((fun entry : string * list string =>
             match find (fun m => present fs (repo_dir </> m)) (snd entry) with
             | Some m => [fst entry +:+ " (" +:+ m +:+ ")"]
             | None => []
             end) <$> LiveTestRunner.deps).

(** The command line of the clone. *)
Definition clone_argv (test_dir repo : string) : list string :=
  [ "git"; "clone"; "--depth"; "1";
    "https://github.com/" +:+ repo +:+ ".git"; repo_path test_dir repo ].

(** The clone stage, from the files that exist and from what [git]
    does: whether it succeeds, the text the threshold variant returns
    with it, the files afterwards and the events. *)
Definition clone_stage (E : Env) (test_dir repo : string)
    (fs : gmap string fnode)
    : bool * string * gmap string fnode * list event :=
  let dest := repo_path test_dir repo in
  if present fs dest then (true, "Already cloned", fs, [EExists dest])
  else
    let '(p, fs') := run_process E (clone_argv test_dir repo) fs in
    let '(ok, text) :=
      match p with
      | Completed rc out err => (rc =? 0, out +:+ err)
      | Failed msg => (false, msg)
      end in
    (ok, text, fs', [EExists dest; ERun (clone_argv test_dir repo)]).

(** A result of [analyze_repo], field by field. *)
Definition result_of (name timestamp : string)
    (cloned : bool) (clone_error : pyval)
    (found : bool) (content error : pyval) (dependencies plan : dict) : dict :=
  [ ("repo", VStr name);
    ("timestamp", VStr timestamp);
    ("clone", VDict [("success", VBool cloned); ("error", clone_error)]);
    ("readme", VDict [("found", VBool found); ("content", content);
                      ("error", error)]);
    ("dependencies", VDict dependencies);
    ("action_plan", VDict plan) ].

(** The three results [analyze_repo] can give: the clone failed, the
    README lookup failed, or every stage ran. *)
Inductive analyzed : pyval -> Prop :=
| analyzed_clone_failed name ts out :
    analyzed (VDict (result_of name ts false (VStr out)
                               false VNone VNone [] []))
| analyzed_readme_failed name ts out :
    analyzed (VDict (result_of name ts true VNone
                               false VNone (VStr out) [] []))
| analyzed_complete name ts text fs repo_dir :
    analyzed (VDict (result_of name ts true VNone
                       true (VStr text) VNone
                       (detected fs repo_dir)
                       (Plan.generate_action_plan name text
                          (detected fs repo_dir) repo_dir))).

(** Fields of a result, with [false] for what is not there. *)
Definition field2 (k1 k2 : string) (r : pyval) : option pyval :=
  match r with
  | VDict d => match dget k1 d with
               | Some (VDict d1) => dget k2 d1
               | _ => None
               end
  | _ => None
  end.

Definition repo_of (r : pyval) : option pyval :=
  match r with VDict d => dget "repo" d | _ => None end.

Definition repo_plan (r : pyval) : option pyval :=
  match r with VDict d => dget "action_plan" d | _ => None end.

Definition clone_ok (r : pyval) : bool :=
  match field2 "clone" "success" r with Some v => truthy v | None => false end.

Definition readme_ok (r : pyval) : bool :=
  match field2 "readme" "found" r with Some v => truthy v | None => false end.

(** Every stage ran for this result. *)
Definition complete (r : pyval) : Prop :=
  clone_ok r = true ∧ readme_ok r = true.

(** ** Sample environments, worlds and texts *)

Module Sample.

(** A [git] that fails on every repository. *)
Definition env_fail : Env :=
  mkEnv (fun _ fs => (Completed 128 "" "fatal: repository not found", fs))
        (fun n => "T" +:+ pretty n) (fun _ => "{}") (fun _ => "0.0")
        (fun _ => "?").

(** A [git] that creates the destination, which is its last argument,
    as an empty directory. *)
Definition env_ok : Env :=
  mkEnv (fun argv fs =>
           match last argv with
           | Some d => (Completed 0 "" "Cloning", <[d := FDir]> fs)
           | None => (Failed "usage", fs)
           end)
        (fun n => "T" +:+ pretty n) (fun _ => "{}") (fun _ => "0.0")
        (fun _ => "?").

Definition self : runner := mkRunner "/t" [].

Definition repo : Repo := mkRepo "o/r" "Go".

Definition empty_world : World := mkWorld ∅ 0 [].

(** [o/r] is cloned and its directory is empty. *)
Definition fs_bare : gmap string fnode := {[ "/t/repos/o_r" := FDir ]}.

(** [o/r] is cloned and holds a [Makefile] only. *)
Definition fs_makefile : gmap string fnode :=
  <[ "/t/repos/o_r/Makefile" := FText "all:" ]> fs_bare.

(** The same directory with a [Makefile] that cannot be read. *)
Definition fs_makefile' : gmap string fnode :=
  <[ "/t/repos/o_r/Makefile" := FBad "Permission denied" ]> fs_bare.

(** [o/r] is cloned and holds a README only. *)
Definition fs_readme : gmap string fnode :=
  <[ "/t/repos/o_r/README.md" := FText "`npm run build`" ]> fs_bare.

Definition world_of (fs : gmap string fnode) : World := mkWorld fs 0 [].

(** The first eight of [TEST_REPOS] are cloned under [root], each with
    a [README.md]; the last two are not. *)
Definition fs_eight (root : string) : gmap string fnode :=
  foldr (fun r fs =>
           <[ repo_path root (name r) := FDir ]>
             (<[ repo_path root (name r) </> "README.md"
                 := FText "Run: npm start" ]> fs))
        ∅ (take 8 TEST_REPOS).

(** All ten of [TEST_REPOS] are cloned under [root], each with a
    [README.md] and a [package.json]. *)
Definition fs_all (root : string) : gmap string fnode :=
  foldr (fun r fs =>
           <[ repo_path root (name r) := FDir ]>
             (<[ repo_path root (name r) </> "README.md"
                 := FText "Run: npm start" ]>
                (<[ repo_path root (name r) </> "package.json"
                    := FText "{}" ]> fs)))
        ∅ TEST_REPOS.

Definition lines (l : list string) : string := Str.join nl l.

(** Three results of [analyze_repo]: a directory with [package.json],
    one with [package.json], [requirements.txt] and a [Makefile], and a
    clone that failed. *)
Definition fs_node : gmap string fnode :=
  {[ "/t/repos/a_b/package.json" := FText "{}" ]}.

Definition fs_node_python : gmap string fnode :=
  <[ "/t/repos/c_d/requirements.txt" := FText "flask" ]>
    (<[ "/t/repos/c_d/Makefile" := FText "all:" ]>
       {[ "/t/repos/c_d/package.json" := FText "{}" ]}).

Definition analyzed_three : list pyval :=
  [ VDict (result_of "a/b" "T0" true VNone true (VStr "Run: npm start") VNone
             (detected fs_node "/t/repos/a_b")
             (Plan.generate_action_plan "a/b" "Run: npm start"
                (detected fs_node "/t/repos/a_b") "/t/repos/a_b"));
    VDict (result_of "c/d" "T1" true VNone true (VStr "Run: npm start") VNone
             (detected fs_node_python "/t/repos/c_d")
             (Plan.generate_action_plan "c/d" "Run: npm start"
                (detected fs_node_python "/t/repos/c_d") "/t/repos/c_d"));
    VDict (result_of "o/r" "T2" false (VStr "fatal: repository not found")
             false VNone VNone [] []) ].

Definition readme_build : string :=
  lines ["# Build"; "`npm run build`"; "Run: npm start"].

(** Five candidate lines, then the backtick-wrapped one. *)
Definition readme_six : string :=
  lines ["npm run a"; "npm run b"; "npm run c"; "npm run d"; "npm run e";
         "`npm run build`"].

End Sample.

(** The files after [p.mkdir(exist_ok=True)]. *)
Definition made (p : string) (fs : gmap string fnode) : gmap string fnode :=
  match fs !! p with None => <[p := FDir]> fs | Some _ => fs end.

(** The directories [setup] makes. *)
Definition work_dirs (test_dir : string) : list string :=
  [ test_dir; test_dir </> "logs"; test_dir </> "reports";
    test_dir </> "repos" ].

(** The ecosystem tags that are counted. *)
Definition tags : list string := ["python"; "node"; "rust"; "go"; "cpp"].

(** Was the tag detected for this result? *)
Definition flagged (tag : string) (r : pyval) : bool :=
  match r with
  | VDict d => match dget "dependencies" d with
               | Some (VDict deps) => get_truthy tag deps
               | _ => false
               end
  | _ => false
  end.

(** In how many of the results the tag was detected. *)
Definition tally (tag : string) (rs : list pyval) : Z :=
  Z.of_nat (length (List.filter (flagged tag) rs)).

(** One turn of the inner loop of [_aggregate_dependencies], and all
    turns for one result. *)
Definition count_item (dep_counts : dict) (item : string * pyval) : dict :=
  if truthy (snd item) && negb (String.eqb (fst item) "other")
  then dset (fst item)
         (VInt (match dget (fst item) dep_counts with
                | Some v => TestRunner.count_of v
                | None => 0
                end + 1)) dep_counts
  else dep_counts.

Definition count_result (dep_counts : dict) (r : pyval) : dict :=
  match r with
  | VDict d => match dget "dependencies" d with
               | Some (VDict items) => foldl count_item dep_counts items
               | _ => dep_counts
               end
  | _ => dep_counts
  end.

(** The count kept for a key, 0 when the key is not there. *)
Definition count_at (tag : string) (d : dict) : Z :=
  match dget tag d with Some v => TestRunner.count_of v | None => 0 end.

(** [dep_counts] has no key twice, holds positive integers only, and
    keeps for each tag its count [k] and for any other key nothing. *)
Definition tallied (k : string → Z) (d : dict) : Prop :=
  NoDup (fst <$> d)
  ∧ (∀ tag v, dget tag d = Some v → ∃ n, v = VInt n ∧ 0 < n)
  ∧ ∀ tag, count_at tag d = if bool_decide (tag ∈ tags) then k tag else 0.

(** The README the live variant finds: [README.md], or else the first
    alternative that exists. *)
Definition live_readme (fs : gmap string fnode) (repo_dir : string)
    : option string :=
  find (fun n => present fs (repo_dir </> n))
       ("README.md" :: LiveTestRunner.readme_alternatives).

(** The result of [test_runthis_cli] when the clone failed. *)
Definition not_cloned (repo : Repo) (timestamp : string) : dict :=
  [ ("repo", VStr (name repo));
    ("timestamp", VStr timestamp);
    ("would_clone",
     VStr ("git clone --depth 1 https://github.com/" +:+ name repo +:+ ".git"));
    ("would_readme", VNone);
    ("would_detect_deps", VNone);
    ("would_ask_ai", VNone);
    ("would_install", VNone);
    ("would_run", VNone);
    ("failure_mode", VBool true);
    ("failure_reason", VStr ("Failed to clone " +:+ name repo)) ].

(** The result of [test_runthis_cli] after a clone, from the README
    found and the dependencies detected. *)
Definition tested (repo : Repo) (timestamp : string)
    (readme : option string) (detected_deps : list string) : dict :=
  [ ("repo", VStr (name repo));
    ("timestamp", VStr timestamp);
    ("would_clone",
     VStr ("git clone --depth 1 https://github.com/" +:+ name repo +:+ ".git"));
    ("would_readme",
     VStr (match readme with
           | Some n => n +:+ " found"
           | None => "No README found"
           end));
    ("would_detect_deps",
     match detected_deps with
     | [] => VStr "none detected"
     | _ => VList (map VStr detected_deps)
     end);
    ("would_ask_ai",
     VDict ([ ("prompt", VStr ("Determine how to run " +:+ name repo
                               +:+ " from README"));
              ("expected_response",
               VDict (LiveTestRunner.expected_response repo detected_deps)) ]
            ++ match detected_deps with
               | [] =>
                   [ ("ai_response",
                      VStr "Unable to determine how to run this project");
                     ("would_fail", VBool true);
                     ("failure_message",
                      VStr "AI could not determine action - would exit gracefully") ]
               | _ => []
               end));
    ("would_install",
     VStr (match detected_deps with
           | [] => "No dependencies detected"
           | _ => "Would run install command for: "
                  +:+ Str.join ", " detected_deps
           end));
    ("would_run", VStr "Would execute the determined run command");
    ("failure_mode",
     VBool (match detected_deps, readme with
            | [], _ | _, None => true
            | _, _ => false
            end));
    ("failure_reason",
     match detected_deps, readme with
     | [], _ => VStr "AI failure mode - no clear instructions found"
     | _, None => VStr "No README found - runthis would exit with code 1"
     | _, _ => VNone
     end) ].

(** The results of the live variant. *)
Inductive live_result : pyval -> Prop :=
| live_not_cloned repo ts : live_result (VDict (not_cloned repo ts))
| live_tested repo ts readme detected_deps :
    live_result (VDict (tested repo ts readme detected_deps)).

(** Is the result in failure mode? *)
Definition failing (r : pyval) : bool :=
  match r with
  | VDict d => match dget "failure_mode" d with
               | Some v => truthy v
               | None => false
               end
  | _ => false
  end.

(** Did the test get as far as the question to the AI?  [would_ask_ai]
    is a dict then, and [None] before. *)
Definition asked (r : pyval) : bool :=
  match r with
  | VDict d => match dget "would_ask_ai" d with
               | Some (VDict _) => true
               | _ => false
               end
  | _ => false
  end.

(** * Properties *)

Example split_lines_ex :
  Str.split_lines ("a" +:+ String Str.newline "b" +:+ String Str.newline "")
  = ["a"; "b"; ""].
Proof. reflexivity. Qed.

Example run_commands_ex :
  Plan.run_commands ("# Build" +:+ String Str.newline "  `npm run build`  "
                     +:+ String Str.newline "Run: npm start")
  = ["npm run build"; "Run: npm start"].
Proof. vm_compute. reflexivity. Qed.

Example float_rate_ex :
  PrimFloat.leb 80%float
    (PrimFloat.mul (PrimFloat.div (PrimFloat.of_uint63 8%uint63)
                                  (PrimFloat.of_uint63 10%uint63)) 100%float)
  = true.
Proof. vm_compute. reflexivity. Qed.

(** With every repository cloned and complete, both [main] return 0. *)
Example mains_return_zero :
  fst (TestRunner.main Sample.env_fail
         (Sample.world_of (Sample.fs_all "/tmp/runthis_tests"))) = Ok 0
  ∧ fst (LiveTestRunner.main Sample.env_fail
           (Sample.world_of (Sample.fs_all "/tmp/runthis_live_tests"))) = Ok 0.
Proof. vm_compute. split; reflexivity. Qed.

(** ** Run commands: length and order *)

Section RunCommands.

Lemma scan_line_candidate acc line :
  Plan.scan_line acc line
  = acc ++ match candidate line with Some c => [c] | None => [] end.
Proof.
  unfold candidate, Plan.scan_line.
  repeat case_match; simplify_eq/=; by rewrite ?app_nil_r.
Qed.

Lemma fold_scan_line (lines acc : list string) :
  fold_left Plan.scan_line lines acc = acc ++ omap candidate lines.
Proof.
  revert acc. induction lines as [|l lines IH]; intros acc; simpl.
  - by rewrite app_nil_r.
  - rewrite IH, scan_line_candidate.
    destruct (candidate l); simpl; by rewrite <- app_assoc.
Qed.

Lemma run_commands_spec readme :
  Plan.run_commands readme = take 5 (omap candidate (Str.split_lines readme)).
Proof. unfold Plan.run_commands. by rewrite fold_scan_line. Qed.

(** A line that contributes contributes its stripped text, which is
    not empty and opens neither with [#] nor with [<!--]. *)
Lemma candidate_Some line c :
  candidate line = Some c →
  c = Plan.command_of line
  ∧ Str.is_empty c = false
  ∧ Str.startswith c "#" = false
  ∧ Str.startswith c "<!--" = false.
Proof.
  unfold candidate, Plan.scan_line.
  repeat case_match; simplify_eq/=; try done.
  intros [= <-].
  repeat match goal with
         | H : _ && _ = true |- _ => apply andb_true_iff in H as [? ?]
         | H : negb _ = true |- _ => apply negb_true_iff in H
         end.
  done.
Qed.

Lemma omap_candidate (lines : list string) :
  omap candidate lines
  = Plan.command_of <$> filter (λ l, is_Some (candidate l)) lines.
Proof.
  induction lines as [|l lines IH]; [done|].
  rewrite filter_cons. simpl. destruct (candidate l) as [c|] eqn:Hc.
  - rewrite decide_True by eauto. rewrite fmap_cons.
    destruct (candidate_Some _ _ Hc) as [-> _]. f_equal. apply IH.
  - rewrite decide_False; [done|]. by intros [? [=]].
Qed.

Lemma plan_run_commands repo readme dependencies repo_dir :
  dget "run_commands"
    (Plan.generate_action_plan repo readme dependencies repo_dir)
  = Some (VList (VStr <$> Plan.run_commands readme)).
Proof. reflexivity. Qed.

End RunCommands.

(** C5.  For every README text the plan's [run_commands] holds at most
    five commands, and they are the commands of the first five
    contributing lines, in the order of the lines. *)
Theorem run_commands_first_five_in_order
    (repo readme : string) (dependencies : dict) (repo_dir : string) :
  let plan :=
    TestRunner.generate_action_plan repo readme dependencies repo_dir in
  let lines := Str.split_lines readme in
  ∃ cmds : list string,
    dget "run_commands" plan = Some (VList (VStr <$> cmds))
    ∧ (length cmds ≤ 5)%nat
    ∧ cmds = take 5 (omap candidate lines)
    ∧ ∃ picked : list string,
        picked `sublist_of` lines
        ∧ Forall (λ l, candidate l = Some (Plan.command_of l)) picked
        ∧ cmds = Plan.command_of <$> picked.
Proof.
  intros plan lines. exists (Plan.run_commands readme).
  split; [apply plan_run_commands|].
  rewrite run_commands_spec. fold lines.
  split; [rewrite length_take; lia|]. split; [done|].
  exists (take 5 (filter (λ l, is_Some (candidate l)) lines)).
  split; [|split].
  - etrans; [apply sublist_take|apply sublist_filter].
  - apply Forall_take, Forall_forall. intros l Hl.
    apply list_elem_of_filter in Hl as [[c Hc] _].
    by destruct (candidate_Some _ _ Hc) as [<- _].
  - by rewrite omap_candidate, fmap_take.
Qed.

(** C6, as the claim states it, fails: five contributing lines before
    the backtick-wrapped line push it out of the list. *)
Lemma npm_run_build_truncated :
  "`npm run build`" ∈ Str.split_lines Sample.readme_six
  ∧ "npm run build" ∉ Plan.run_commands Sample.readme_six.
Proof. split; apply (bool_decide_unpack _); vm_compute; exact I. Qed.

(** C6, amended.  For every README, no command in the plan's
    [run_commands] is empty or opens with [#] or [<!--]; and the line
    [`npm run build`] gives the command [npm run build], without the
    backticks, when fewer than five contributing lines come before
    it. *)
Theorem npm_run_build_listed
    (repo readme : string) (dependencies : dict) (repo_dir : string) :
  let plan :=
    TestRunner.generate_action_plan repo readme dependencies repo_dir in
  ∃ cmds : list string,
    dget "run_commands" plan = Some (VList (VStr <$> cmds))
    ∧ (∀ cmd, cmd ∈ cmds →
         Str.is_empty cmd = false
         ∧ Str.startswith cmd "#" = false
         ∧ Str.startswith cmd "<!--" = false)
    ∧ ∀ before after : list string,
        Str.split_lines readme = before ++ "`npm run build`" :: after →
        (length (omap candidate before) < 5)%nat →
        "npm run build" ∈ cmds.
Proof.
  intros plan. exists (Plan.run_commands readme).
  split; [apply plan_run_commands|].
  rewrite run_commands_spec. split.
  - intros cmd Hin. apply subseteq_take in Hin.
    apply list_elem_of_omap in Hin as (l & _ & Hc).
    by destruct (candidate_Some _ _ Hc) as (_ & ? & ? & ?).
  - intros before after Hsplit Hlt. rewrite Hsplit, omap_app. simpl.
    change (candidate "`npm run build`") with (Some "npm run build").
    apply list_elem_of_lookup. exists (length (omap candidate before)).
    rewrite lookup_take_lt by lia.
    by apply list_lookup_middle.
Qed.

Lemma npm_run_build_listed_witness :
  ∃ cmds,
    dget "run_commands"
      (TestRunner.generate_action_plan "o/r" Sample.readme_build []
         "/t/repos/o_r")
    = Some (VList (VStr <$> cmds))
    ∧ "npm run build" ∈ cmds.
Proof.
  destruct (npm_run_build_listed "o/r" Sample.readme_build [] "/t/repos/o_r")
    as (cmds & Hplan & _ & Hlisted).
  exists cmds. split; [exact Hplan|].
  apply (Hlisted ["# Build"] ["Run: npm start"]).
  - reflexivity.
  - vm_compute. lia.
Defined.

(** ** Exit status *)

(** C2.  Eight of the ten repositories are cloned and [git] fails on
    the other two.  The clone success rate would be 80.0, which passes
    the threshold, and the live variant is to return 0 whatever failed;
    yet neither [main] returns: the threshold variant raises [KeyError]
    in [generate_report], the live variant [AttributeError] in
    [print_report]. *)
Theorem main_raises_after_clone_failure :
  let E := Sample.env_fail in
  let strict := Sample.world_of (Sample.fs_eight "/tmp/runthis_tests") in
  let live := Sample.world_of (Sample.fs_eight "/tmp/runthis_live_tests") in
  fst (TestRunner.main E strict) = Raise (KeyError "run_commands")
  ∧ fst (LiveTestRunner.main E live)
    = Raise (AttributeError "object has no attribute 'get'")
  ∧ (λ self', clone_ok <$> results self')
      <$> returned (TestRunner.analysis_loop E
                      (mkRunner "/tmp/runthis_tests" []) TEST_REPOS strict)
    = Some [true; true; true; true; true; true; true; true; false; false]
  ∧ PrimFloat.mul (true_div 8 10) 100%float = 80%float
  ∧ fst (ge_80 (VFloat 80%float) strict) = Ok true.
Proof. vm_compute. repeat split; reflexivity. Qed.

(** ** Steps of the monad *)

Section Steps.

Lemma path_exists_run p w :
  path_exists p w = (Ok (present (w_fs w) p), after w [EExists p]).
Proof. reflexivity. Qed.

Lemma after_after w evs evs' : after (after w evs) evs' = after w (evs ++ evs').
Proof. unfold after. simpl. by rewrite <- app_assoc. Qed.

Lemma after_nil w : after w [] = w.
Proof. destruct w. unfold after. simpl. by rewrite app_nil_r. Qed.

Lemma emit_after e w : emit e w = after w [e].
Proof. reflexivity. Qed.

Lemma bind_assoc {A B C} (m : M A) (k1 : A → M B) (k2 : B → M C) w :
  bind (bind m k1) k2 w = bind m (λ a, bind (k1 a) k2) w.
Proof. unfold bind. by destruct (m w) as [[a|e] w']. Qed.

Lemma bind_ret {A B} (a : A) (k : A → M B) w : bind (ret a) k w = k a w.
Proof. reflexivity. Qed.

Lemma bind_raise {A B} e (k : A → M B) w :
  bind (raise e) k w = (Raise e, w).
Proof. reflexivity. Qed.

Lemma bind_path_exists {B} p (k : bool → M B) w :
  bind (path_exists p) k w = k (present (w_fs w) p) (after w [EExists p]).
Proof. reflexivity. Qed.

Lemma bind_print {B} line (k : unit → M B) w :
  bind (print line) k w = k tt (after w [EPrint line]).
Proof. reflexivity. Qed.

Lemma bind_write_text {B} p text (k : unit → M B) w :
  bind (write_text p text) k w
  = k tt (emit (EWriteText p text) (with_fs (<[p := FText text]> (w_fs w)) w)).
Proof. reflexivity. Qed.

Lemma bind_run {A B} (m : M A) (k : A → M B) w :
  bind m k w = match m w with
               | (Ok a, w') => k a w'
               | (Raise e, w') => (Raise e, w')
               end.
Proof. reflexivity. Qed.

End Steps.

(** Bring the next step of a computation to the front. *)
Ltac mnorm := cbv beta iota; rewrite ?bind_assoc.

(** ** Cloning *)

(** C8.  When the destination of a repository exists, [clone_repo] of
    either variant returns success after the one look at the
    destination: no subprocess is started, whatever [git] would do, and
    no file changes.  A second call does the same again. *)
Theorem clone_skips_existing (E : Env) (self : runner) (repo : string) (w : World) :
  present (w_fs w) (repo_path (test_dir self) repo) = true →
  let dest := repo_path (test_dir self) repo in
  TestRunner.clone_repo E self repo w
  = (Ok (true, "Already cloned"), after w [EExists dest])
  ∧ LiveTestRunner.clone_repo E self repo w
    = (Ok (true, dest), after w [EExists dest])
  ∧ (TestRunner.clone_repo E self repo ;; TestRunner.clone_repo E self repo) w
    = (Ok (true, "Already cloned"), after w [EExists dest; EExists dest])
  ∧ (LiveTestRunner.clone_repo E self repo ;; LiveTestRunner.clone_repo E self repo) w
    = (Ok (true, dest), after w [EExists dest; EExists dest])
  ∧ existsb is_run [EExists dest; EExists dest] = false.
Proof.
  intros Hdest dest.
  assert (Hs : TestRunner.clone_repo E self repo w
               = (Ok (true, "Already cloned"), after w [EExists dest])).
  { unfold TestRunner.clone_repo. rewrite bind_run, path_exists_run.
    by rewrite Hdest. }
  assert (Hl : LiveTestRunner.clone_repo E self repo w
               = (Ok (true, dest), after w [EExists dest])).
  { unfold LiveTestRunner.clone_repo. rewrite bind_run, path_exists_run.
    by rewrite Hdest. }
  repeat split; try done.
  - rewrite bind_run, Hs.
    unfold TestRunner.clone_repo. rewrite bind_run, path_exists_run.
    simpl. rewrite Hdest. by rewrite after_after.
  - rewrite bind_run, Hl.
    unfold LiveTestRunner.clone_repo. rewrite bind_run, path_exists_run.
    simpl. rewrite Hdest. by rewrite after_after.
Qed.

Lemma clone_skips_existing_witness :
  TestRunner.clone_repo Sample.env_fail Sample.self "o/r"
    (Sample.world_of Sample.fs_bare)
  = (Ok (true, "Already cloned"),
     after (Sample.world_of Sample.fs_bare) [EExists "/t/repos/o_r"]).
Proof.
  apply (clone_skips_existing Sample.env_fail Sample.self "o/r"
           (Sample.world_of Sample.fs_bare)).
  vm_compute. reflexivity.
Defined.

(** ** Manifest detection *)

Section Detection.

Lemma dget_dset_eq k v d : dget k (dset k v d) = Some v.
Proof.
  induction d as [|[k' v'] d IH]; simpl.
  - by rewrite String.eqb_refl.
  - destruct (String.eqb k k') eqn:Hk; simpl; rewrite ?String.eqb_refl, ?Hk; done.
Qed.

Lemma dget_dset_ne k k' v d :
  String.eqb k k' = false → dget k (dset k' v d) = dget k d.
Proof.
  intros Hne. induction d as [|[k'' v''] d IH]; simpl.
  - by rewrite Hne.
  - destruct (String.eqb k' k'') eqn:Hk; simpl.
    + apply String.eqb_eq in Hk as <-. by rewrite Hne.
    + by rewrite IH.
Qed.

(** The list under [other] stays a list through the loop. *)
Lemma mark_other t m b d :
  (∃ l, dget "other" d = Some (VList l)) →
  ∃ l, dget "other" (mark t m b d) = Some (VList l).
Proof.
  intros [l Hl]. unfold mark. destruct b; [|eauto].
  destruct (String.eqb t "other") eqn:Ht.
  - rewrite Hl. rewrite dget_dset_eq. eauto.
  - rewrite dget_dset_ne; [eauto|]. by rewrite String.eqb_sym.
Qed.

Lemma check_manifest_run repo_dir d m t w :
  (∃ l, dget "other" d = Some (VList l)) →
  TestRunner.check_manifest repo_dir d (m, t) w
  = (Ok (mark t m (present (w_fs w) (repo_dir </> m)) d),
     after w [EExists (repo_dir </> m)]).
Proof.
  intros [l Hl]. unfold TestRunner.check_manifest, mark.
  rewrite bind_path_exists.
  destruct (present _ _); [|done].
  destruct (String.eqb t "other"); [|done].
  unfold getitem. by rewrite Hl.
Qed.

Lemma check_loop_run repo_dir (cs : list (string * string)) d w :
  (∃ l, dget "other" d = Some (VList l)) →
  for_each cs d (TestRunner.check_manifest repo_dir) w
  = (Ok (foldl (λ d c, mark c.2 c.1 (present (w_fs w) (repo_dir </> c.1)) d)
               d cs),
     after w (EExists <$> (path_join repo_dir <$> (fst <$> cs)))).
Proof.
  revert d w. induction cs as [|[m t] cs IH]; intros d w Hd.
  - simpl. by rewrite after_nil.
  - cbn [for_each]. rewrite bind_run, check_manifest_run by done.
    rewrite IH by by apply mark_other.
    cbn [w_fs after foldl fst snd]. by rewrite after_after.
Qed.

Lemma detect_dependencies_run self repo_dir w :
  TestRunner.detect_dependencies self repo_dir w
  = (Ok (detected (w_fs w) repo_dir),
     after w (EExists <$> (path_join repo_dir <$> strict_manifests))).
Proof.
  unfold TestRunner.detect_dependencies.
  rewrite check_loop_run by (eexists; reflexivity).
  f_equal. f_equal. unfold detected, TestRunner.checks. cbn [foldl fst snd].
  repeat match goal with
         | |- context [present ?fs ?p] =>
             let b := fresh "b" in
             generalize (present fs p); intros b
         end.
  repeat match goal with b : bool |- _ => destruct b end; reflexivity.
Qed.

Lemma first_existing_run repo_dir names w :
  LiveTestRunner.first_existing repo_dir names w
  = (Ok (find (λ m, present (w_fs w) (repo_dir </> m)) names),
     after w (EExists <$> (path_join repo_dir
                             <$> looked_at (w_fs w) repo_dir names))).
Proof.
  revert w. induction names as [|n names IH]; intros w.
  - simpl. by rewrite after_nil.
  - cbn [LiveTestRunner.first_existing find looked_at].
    rewrite bind_path_exists.
    destruct (present (w_fs w) (repo_dir </> n)); [done|].
    rewrite IH. cbn [w_fs after]. by rewrite after_after.
Qed.

Lemma detect_loop_run repo_dir (entries : list (string * list string)) acc w :
  for_each entries acc (LiveTestRunner.detect_entry repo_dir) w
  = (Ok (acc ++ concat ((λ entry : string * list string,
                           match find (λ m, present (w_fs w) (repo_dir </> m))
                                      entry.2 with
                           | Some m => [entry.1 +:+ " (" +:+ m +:+ ")"]
                           | None => []
                           end) <$> entries)),
     after w (EExists <$> (path_join repo_dir
                <$> concat ((λ entry : string * list string,
                               looked_at (w_fs w) repo_dir entry.2)
                            <$> entries)))).
Proof.
  revert acc w. induction entries as [|[t ms] entries IH]; intros acc w.
  - simpl. by rewrite app_nil_r, after_nil.
  - cbn [for_each]. unfold LiveTestRunner.detect_entry at 1.
    rewrite bind_assoc, bind_run, first_existing_run.
    cbn [fmap list_fmap concat fst snd].
    destruct (find _ ms) as [m|]; rewrite bind_ret, IH; cbn [w_fs after];
      rewrite after_after, ?fmap_app, ?app_nil_r; by rewrite <- ?app_assoc.
Qed.

Lemma detect_run repo_dir w :
  LiveTestRunner.detect repo_dir w
  = (Ok (live_detected (w_fs w) repo_dir),
     after w (EExists <$> (path_join repo_dir
                <$> concat ((λ entry : string * list string,
                               looked_at (w_fs w) repo_dir entry.2)
                            <$> LiveTestRunner.deps)))).
Proof. unfold LiveTestRunner.detect. by rewrite detect_loop_run. Qed.

Lemma looked_at_subseteq fs repo_dir names :
  looked_at fs repo_dir names ⊆ names.
Proof.
  induction names as [|n names IH]; [done|]. simpl.
  intros x [->|Hx]%elem_of_cons; [by left|].
  destruct (present fs _); [by apply elem_of_nil in Hx|].
  right. by apply IH.
Qed.

(** Both detectors depend on which paths exist, and on nothing else. *)
Lemma looked_at_ext fs1 fs2 repo_dir names :
  (∀ p, present fs1 p = present fs2 p) →
  looked_at fs1 repo_dir names = looked_at fs2 repo_dir names.
Proof.
  intros Hp. induction names as [|n names IH]; [done|].
  simpl. by rewrite Hp, IH.
Qed.

Lemma find_present_ext fs1 fs2 repo_dir names :
  (∀ p, present fs1 p = present fs2 p) →
  find (λ m, present fs1 (repo_dir </> m)) names
  = find (λ m, present fs2 (repo_dir </> m)) names.
Proof.
  intros Hp. induction names as [|n names IH]; [done|].
  simpl. by rewrite Hp, IH.
Qed.

End Detection.

Lemma elem_of_concat {A} (x : A) (ls : list (list A)) :
  x ∈ concat ls ↔ ∃ l, x ∈ l ∧ l ∈ ls.
Proof.
  induction ls as [|l ls IH]; simpl.
  - split; [by intros ?%elem_of_nil|]. by intros (l & _ & ?%elem_of_nil).
  - rewrite elem_of_app, IH. split.
    + intros [Hx|(l' & Hx & Hl')].
      * exists l. split; [done|by left].
      * exists l'. split; [done|by right].
    + intros (l' & Hx & [->|Hl']%elem_of_cons); [by left|].
      right. by exists l'.
Qed.

Lemma present_insert_same (fs : gmap string fnode) k v v' p :
  present (<[k := v]> fs) p = present (<[k := v']> fs) p.
Proof.
  unfold present. destruct (decide (k = p)) as [->|Hne].
  - by rewrite !lookup_insert_eq.
  - by rewrite !lookup_insert_ne.
Qed.

(** C3, as the claim states it, fails in the live variant: a directory
    whose only manifest is a [Makefile] is reported under [cpp] there,
    and under [other] in the threshold variant. *)
Lemma live_makefile_is_cpp :
  fst (LiveTestRunner.detect "/t/repos/o_r"
         (Sample.world_of Sample.fs_makefile))
  = Ok ["cpp (Makefile)"]
  ∧ fst (TestRunner.detect_dependencies Sample.self "/t/repos/o_r"
           (Sample.world_of Sample.fs_makefile))
    = Ok [ ("python", VBool false); ("node", VBool false);
           ("rust", VBool false); ("go", VBool false); ("cpp", VBool false);
           ("other", VList [VStr "Makefile"]) ].
Proof. split; vm_compute; reflexivity. Qed.

(** C3, amended.  In the threshold variant a [Makefile] goes to the
    list under [other] and leaves the [cpp] flag to [CMakeLists.txt];
    in the live variant it is listed under [cpp] and reported as
    [cpp (Makefile)] when there is no [CMakeLists.txt].  Both detectors
    only ask which files exist: two worlds with the same existing paths
    give the same answers, whatever the files hold, and the only
    effects are [exists] queries on manifest names. *)
Theorem makefile_tag_and_existence_only
    (self : runner) (repo_dir : string) (w w' : World) :
  (∀ p, present (w_fs w) p = present (w_fs w') p) →
  let has m := present (w_fs w) (repo_dir </> m) in
  (∃ d names,
      TestRunner.detect_dependencies self repo_dir w
      = (Ok d, after w (EExists <$> (path_join repo_dir <$> names)))
      ∧ names ⊆ strict_manifests
      ∧ dget "other" d
        = Some (VList (if has "Makefile" then [VStr "Makefile"] else []))
      ∧ dget "cpp" d = Some (VBool (has "CMakeLists.txt"))
      ∧ fst (TestRunner.detect_dependencies self repo_dir w') = Ok d)
  ∧ (∃ l before names,
        LiveTestRunner.detect repo_dir w
        = (Ok l, after w (EExists <$> (path_join repo_dir <$> names)))
        ∧ names ⊆ live_manifests
        ∧ l = before
              ++ (if has "CMakeLists.txt" then ["cpp (CMakeLists.txt)"]
                  else if has "Makefile" then ["cpp (Makefile)"] else [])
        ∧ fst (LiveTestRunner.detect repo_dir w') = Ok l).
Proof.
  intros Hp has. split.
  - eexists _, _. rewrite !detect_dependencies_run. cbn [fst].
    split; [reflexivity|]. split; [done|]. split; [done|]. split; [done|].
    unfold detected. by rewrite !Hp.
  - eexists _, _, _. rewrite !detect_run. cbn [fst].
    split; [reflexivity|]. split; [|split].
    + unfold live_manifests. intros x Hx.
      apply elem_of_concat in Hx as (ns & Hx & Hns).
      apply list_elem_of_fmap in Hns as (entry & -> & Hentry).
      apply elem_of_concat. exists entry.2. split.
      * by eapply looked_at_subseteq.
      * apply list_elem_of_fmap. by exists entry.
    + unfold live_detected, LiveTestRunner.deps.
      cbn [fmap list_fmap concat fst snd].
      rewrite !app_assoc, app_nil_r. f_equal.
      cbn [find]. fold (has "CMakeLists.txt"). fold (has "Makefile").
      by destruct (has "CMakeLists.txt"), (has "Makefile").
    + unfold live_detected. f_equal. f_equal.
      apply list_fmap_ext. intros _ entry _.
      by rewrite (find_present_ext _ _ _ _ Hp).
Qed.

Lemma makefile_tag_and_existence_only_witness :
  ∃ d, fst (TestRunner.detect_dependencies Sample.self "/t/repos/o_r"
              (Sample.world_of Sample.fs_makefile')) = Ok d
       ∧ dget "other" d = Some (VList [VStr "Makefile"]).
Proof.
  destruct (makefile_tag_and_existence_only Sample.self "/t/repos/o_r"
              (Sample.world_of Sample.fs_makefile)
              (Sample.world_of Sample.fs_makefile'))
    as [(d & names & _ & _ & Hother & _ & Hd) _].
  - intros p. apply present_insert_same.
  - exists d. split; [exact Hd|exact Hother].
Defined.

(** C7.  In a directory with none of the manifests, every flag of
    [detect_dependencies] is false and the list under [other] is empty,
    and the plan made from that result holds the placeholder of each of
    the five ecosystems.  Whatever the dependencies are, each of the
    five entries of the install plan is there and is a string that is
    not empty. *)
Theorem no_manifest_placeholders
    (self : runner) (repo_dir repo readme : string) (w : World) :
  (∀ m, m ∈ strict_manifests → present (w_fs w) (repo_dir </> m) = false) →
  let none :=
    [ ("python", VBool false); ("node", VBool false); ("rust", VBool false);
      ("go", VBool false); ("cpp", VBool false); ("other", VList []) ] in
  fst (TestRunner.detect_dependencies self repo_dir w) = Ok none
  ∧ dget "dependencies"
      (TestRunner.generate_action_plan repo readme none repo_dir)
    = Some (VDict [ ("python", VStr "No Python deps");
                    ("node", VStr "No Node deps");
                    ("rust", VStr "No Rust deps");
                    ("go", VStr "No Go deps");
                    ("cpp", VStr "No C++ deps") ])
  ∧ ∀ dependencies : dict,
      ∃ install,
        dget "dependencies"
          (TestRunner.generate_action_plan repo readme dependencies repo_dir)
        = Some (VDict install)
        ∧ Forall (λ k, ∃ s, dget k install = Some (VStr s)
                            ∧ Str.is_empty s = false)
                 ["python"; "node"; "rust"; "go"; "cpp"].
Proof.
  intros Hnone none. split; [|split].
  - rewrite detect_dependencies_run. cbn [fst]. unfold detected.
    rewrite !Hnone; [done|..]; unfold strict_manifests, TestRunner.checks;
      cbn [fmap list_fmap fst]; set_solver.
  - reflexivity.
  - intros dependencies. eexists. split; [reflexivity|].
    unfold Plan.install_plan.
    repeat apply Forall_cons_2; [..|apply Forall_nil_2];
      cbn [dget String.eqb Ascii.eqb Bool.eqb];
      eexists; (split; [reflexivity|]);
      by destruct (get_truthy _ _).
Qed.

Lemma no_manifest_placeholders_witness :
  fst (TestRunner.detect_dependencies Sample.self "/t/repos/o_r"
         (Sample.world_of Sample.fs_readme))
  = Ok [ ("python", VBool false); ("node", VBool false); ("rust", VBool false);
         ("go", VBool false); ("cpp", VBool false); ("other", VList []) ].
Proof.
  apply (no_manifest_placeholders Sample.self "/t/repos/o_r" "o/r" ""
           (Sample.world_of Sample.fs_readme)).
  intros m Hm. unfold strict_manifests, TestRunner.checks in Hm.
  cbn [fmap list_fmap fst] in Hm.
  repeat (apply elem_of_cons in Hm as [->|Hm]; [vm_compute; reflexivity|]).
  by apply elem_of_nil in Hm.
Defined.

(** ** The pipeline of the threshold variant *)

Section StrictPipeline.

Variable E : Env.

Lemma strict_clone_run self repo w :
  TestRunner.clone_repo E self repo w
  = let '(ok, text, fs, evs) :=
      clone_stage E (test_dir self) repo (w_fs w) in
    (Ok (ok, text), mkWorld fs (w_tick w) (w_out w ++ evs)).
Proof.
  unfold TestRunner.clone_repo, clone_stage.
  rewrite bind_path_exists.
  destruct (present _ _); [done|].
  unfold try_except, bind, subprocess_run. cbn [w_fs after].
  fold (clone_argv (test_dir self) repo).
  destruct (run_process E _ _) as [[rc out err|msg] fs'];
    unfold ret, emit, with_fs, after; cbn; by rewrite <- app_assoc.
Qed.

Lemma read_readme_from_none repo_dir paths w :
  (∀ n, n ∈ paths → present (w_fs w) (repo_dir </> n) = false) →
  TestRunner.read_readme_from repo_dir paths w
  = (Ok (false, "No README found"),
     after w (EExists <$> (path_join repo_dir <$> paths))).
Proof.
  revert w. induction paths as [|n paths IH]; intros w Hnone.
  - simpl. by rewrite after_nil.
  - cbn [TestRunner.read_readme_from]. rewrite bind_path_exists.
    rewrite Hnone by by left.
    rewrite IH; [|intros; apply Hnone; by right].
    cbn [w_fs after]. by rewrite after_after.
Qed.

Lemma read_readme_from_total repo_dir paths w :
  ∃ ok text evs,
    TestRunner.read_readme_from repo_dir paths w = (Ok (ok, text), after w evs)
    ∧ Forall (touches repo_dir paths) evs.
Proof.
  revert w. induction paths as [|n paths IH]; intros w.
  - exists false, "No README found", []. simpl. by rewrite after_nil.
  - cbn [TestRunner.read_readme_from]. rewrite bind_path_exists.
    assert (Hn : touches repo_dir (n :: paths) (EExists (repo_dir </> n))).
    { exists n. split; [by left|by left]. }
    assert (Hr : touches repo_dir (n :: paths) (EReadText (repo_dir </> n))).
    { exists n. split; [by left|by right]. }
    destruct (present _ _).
    + unfold try_except, bind, read_text. cbn [w_fs after].
      destruct (w_fs w !! (repo_dir </> n)) as [[|t|err]|];
        eexists _, _, [_; _]; (split; [unfold after, emit; cbn;
           by rewrite <- app_assoc|by repeat constructor]).
    + destruct (IH (after w [EExists (repo_dir </> n)]))
        as (ok & text & evs & -> & Hevs).
      exists ok, text, (EExists (repo_dir </> n) :: evs).
      split; [by rewrite after_after|]. constructor; [done|].
      eapply Forall_impl; [done|]. intros e (m & Hm & He).
      exists m. split; [by right|done].
Qed.

(** [analyze_repo], stage by stage. *)
Lemma analyze_repo_run self repo w :
  let ts := clock E (w_tick w) in
  let repo_dir := repo_path (test_dir self) (name repo) in
  let w0 := mkWorld (w_fs w) (S (w_tick w))
              (w_out w ++ [EPrint (nl +:+ "Analyzing " +:+ name repo +:+ "...")]) in
  TestRunner.analyze_repo E self repo w
  = match TestRunner.clone_repo E self (name repo) w0 with
    | (Ok (false, out), w1) =>
        (Ok (result_of (name repo) ts false (VStr out)
                       false VNone VNone [] []), w1)
    | (Ok (true, _), w1) =>
        match TestRunner.read_readme self repo_dir w1 with
        | (Ok (false, out), w2) =>
            (Ok (result_of (name repo) ts true VNone
                           false VNone (VStr out) [] []), w2)
        | (Ok (true, text), w2) =>
            (Ok (result_of (name repo) ts true VNone
                   true (VStr text) VNone
                   (detected (w_fs w2) repo_dir)
                   (Plan.generate_action_plan (name repo) text
                      (detected (w_fs w2) repo_dir) repo_dir)),
             after w2 (EExists <$> (path_join repo_dir <$> strict_manifests)))
        | (Raise e, w2) => (Raise e, w2)
        end
    | (Raise e, w1) => (Raise e, w1)
    end.
Proof.
  intros ts repo_dir w0. unfold TestRunner.analyze_repo.
  rewrite bind_print. unfold bind at 1. unfold now at 1. cbn [w_fs w_tick w_out after].
  fold ts. fold w0. rewrite bind_run.
  destruct (TestRunner.clone_repo E self (name repo) w0)
    as [[[[] out]|e] w1]; [| reflexivity | reflexivity].
  cbn -[result_of TestRunner.read_readme TestRunner.detect_dependencies
        Plan.generate_action_plan path_join repo_path].
  fold repo_dir. rewrite bind_run.
  destruct (TestRunner.read_readme self repo_dir w1)
    as [[[[] text]|e] w2]; [| reflexivity | reflexivity].
  cbn -[result_of TestRunner.read_readme TestRunner.detect_dependencies
        Plan.generate_action_plan path_join repo_path].
  rewrite bind_run, detect_dependencies_run. reflexivity.
Qed.

End StrictPipeline.

(** C4.  When the clone succeeds and none of the README names exists
    in the cloned directory, [analyze_repo] returns a result whose
    [readme.found] is false, with the error [No README found], and
    whose [dependencies] and [action_plan] are the empty dictionaries
    they started as. *)
Theorem missing_readme_leaves_defaults
    (E : Env) (self : runner) (repo : Repo) (w : World)
    (text : string) (fs : gmap string fnode) (evs : list event) :
  let repo_dir := repo_path (test_dir self) (name repo) in
  clone_stage E (test_dir self) (name repo) (w_fs w) = (true, text, fs, evs) →
  (∀ n, n ∈ TestRunner.readme_paths → present fs (repo_dir </> n) = false) →
  ∃ r w',
    TestRunner.analyze_repo E self repo w = (Ok r, w')
    ∧ field2 "clone" "success" (VDict r) = Some (VBool true)
    ∧ field2 "readme" "found" (VDict r) = Some (VBool false)
    ∧ field2 "readme" "content" (VDict r) = Some VNone
    ∧ field2 "readme" "error" (VDict r) = Some (VStr "No README found")
    ∧ dget "dependencies" r = Some (VDict [])
    ∧ dget "action_plan" r = Some (VDict []).
Proof.
  intros repo_dir Hclone Hnone.
  rewrite analyze_repo_run, strict_clone_run. cbn [w_fs w_tick w_out].
  rewrite Hclone. unfold TestRunner.read_readme.
  rewrite read_readme_from_none by done.
  eexists _, _. split; [reflexivity|]. by repeat split.
Qed.

Lemma missing_readme_leaves_defaults_witness :
  ∃ r w',
    TestRunner.analyze_repo Sample.env_fail Sample.self Sample.repo
      (Sample.world_of Sample.fs_bare) = (Ok r, w')
    ∧ dget "action_plan" r = Some (VDict []).
Proof.
  destruct (missing_readme_leaves_defaults Sample.env_fail Sample.self
              Sample.repo (Sample.world_of Sample.fs_bare)
              "Already cloned" Sample.fs_bare [EExists "/t/repos/o_r"])
    as (r & w' & Hrun & _ & _ & _ & _ & _ & Hplan).
  - vm_compute. reflexivity.
  - intros n Hn. unfold TestRunner.readme_paths in Hn.
    repeat (apply elem_of_cons in Hn as [->|Hn]; [vm_compute; reflexivity|]).
    by apply elem_of_nil in Hn.
  - by exists r, w'.
Defined.

(** ** The pipeline of the live variant *)

Section LivePipeline.

Variable E : Env.

Lemma live_clone_run self repo w :
  LiveTestRunner.clone_repo E self repo w
  = let '(ok, text, fs, evs) :=
      clone_stage E (test_dir self) repo (w_fs w) in
    (Ok (ok, repo_path (test_dir self) repo),
     mkWorld fs (w_tick w) (w_out w ++ evs)).
Proof.
  unfold LiveTestRunner.clone_repo, clone_stage.
  rewrite bind_path_exists.
  destruct (present _ _); [done|].
  unfold try_except, bind, subprocess_run. cbn [w_fs after].
  fold (clone_argv (test_dir self) repo).
  destruct (run_process E _ _) as [[rc out err|msg] fs'];
    unfold ret, emit, with_fs, after; cbn; by rewrite <- app_assoc.
Qed.

Lemma live_detected_none fs repo_dir :
  (∀ m, m ∈ live_manifests → present fs (repo_dir </> m) = false) →
  live_detected fs repo_dir = [].
Proof.
  intros Hnone. unfold live_detected, LiveTestRunner.deps.
  cbn [fmap list_fmap concat fst snd find].
  rewrite !Hnone; [done|..]; unfold live_manifests, LiveTestRunner.deps;
    cbn [fmap list_fmap concat snd app];
    repeat first [by left | right].
Qed.

Lemma found_not_empty s : Str.is_empty (s +:+ " found") = false.
Proof. by destruct s. Qed.

End LivePipeline.

(** C10.  In the live variant, when the clone succeeds and none of the
    manifests exists, [would_readme] is a string that is not empty, so
    the guard of the AI failure holds whatever the README lookup found:
    the result is in failure mode with the reason
    [AI failure mode - no clear instructions found], also when the
    README is missing and the reason was [No README found ...] before. *)
Theorem no_deps_gives_ai_failure
    (E : Env) (self : runner) (repo : Repo) (w : World)
    (text : string) (fs : gmap string fnode) (evs : list event) :
  let repo_dir := repo_path (test_dir self) (name repo) in
  clone_stage E (test_dir self) (name repo) (w_fs w) = (true, text, fs, evs) →
  (∀ m, m ∈ live_manifests → present fs (repo_dir </> m) = false) →
  ∃ r w' s,
    LiveTestRunner.test_runthis_cli E self repo w = (Ok r, w')
    ∧ dget "would_readme" r = Some (VStr s)
    ∧ Str.is_empty s = false
    ∧ dget "would_detect_deps" r = Some (VStr "none detected")
    ∧ field2 "would_ask_ai" "would_fail" (VDict r) = Some (VBool true)
    ∧ dget "failure_mode" r = Some (VBool true)
    ∧ dget "failure_reason" r
      = Some (VStr "AI failure mode - no clear instructions found")
    ∧ ((∀ n, n ∈ "README.md" :: LiveTestRunner.readme_alternatives →
             present fs (repo_dir </> n) = false) →
       s = "No README found").
Proof.
  intros repo_dir Hclone Hnone.
  unfold LiveTestRunner.test_runthis_cli.
  rewrite bind_print. unfold bind at 1. unfold now at 1.
  cbn [w_fs w_tick w_out after].
  rewrite bind_run, live_clone_run. cbn [w_fs w_tick w_out].
  rewrite Hclone. cbn [negb]. fold repo_dir.
  rewrite bind_path_exists. cbn [w_fs after].
  destruct (present fs (repo_dir </> "README.md")) eqn:Hreadme.
  - cbv beta iota. rewrite bind_ret, bind_run, detect_run. cbn [w_fs].
    rewrite live_detected_none by done.
    eexists _, _, _. split; [reflexivity|].
    repeat split; try reflexivity.
    intros Habs. rewrite Habs in Hreadme; [done|by left].
  - cbv beta iota.
    rewrite !bind_assoc, bind_run, first_existing_run. cbn [w_fs].
    destruct (find _ LiveTestRunner.readme_alternatives) as [alt|] eqn:Halt.
    + rewrite bind_ret, bind_run, detect_run. cbn [w_fs].
      rewrite live_detected_none by done.
      cbn -[path_join repo_path append].
      destruct (String.eqb (alt +:+ " found") "No README found");
        cbn -[path_join repo_path append];
        rewrite found_not_empty; cbn -[path_join repo_path append];
        (eexists _, _, _; split; [reflexivity|]);
        (repeat split; try reflexivity; try apply found_not_empty);
        intros Habs; apply find_some in Halt as [Hin Hp];
        (rewrite Habs in Hp; [done|right; by apply list_elem_of_In]).
    + rewrite bind_ret, bind_run, detect_run. cbn [w_fs].
      rewrite live_detected_none by done.
      eexists _, _, _. split; [reflexivity|]. by repeat split.
Qed.

Lemma no_deps_gives_ai_failure_witness :
  ∃ r w',
    LiveTestRunner.test_runthis_cli Sample.env_fail Sample.self Sample.repo
      (Sample.world_of Sample.fs_bare) = (Ok r, w')
    ∧ dget "failure_reason" r
      = Some (VStr "AI failure mode - no clear instructions found").
Proof.
  destruct (no_deps_gives_ai_failure Sample.env_fail Sample.self
              Sample.repo (Sample.world_of Sample.fs_bare)
              "Already cloned" Sample.fs_bare [EExists "/t/repos/o_r"])
    as (r & w' & s & Hrun & _ & _ & _ & _ & _ & Hreason & _).
  - vm_compute. reflexivity.
  - intros m Hm. unfold live_manifests, LiveTestRunner.deps in Hm.
    cbn [fmap list_fmap concat snd app] in Hm.
    repeat (apply elem_of_cons in Hm as [->|Hm]; [vm_compute; reflexivity|]).
    by apply elem_of_nil in Hm.
  - by exists r, w'.
Defined.

(** ** Every repository gets a result *)

Section Loops.

Variable E : Env.

Lemma clone_stage_failed test_dir repo fs text fs' evs :
  clone_stage E test_dir repo fs = (false, text, fs', evs) →
  evs = [EExists (repo_path test_dir repo); ERun (clone_argv test_dir repo)].
Proof.
  unfold clone_stage. destruct (present _ _); [done|].
  destruct (run_process E _ _) as [[rc out err|msg] fs''];
    intros ?; by simplify_eq.
Qed.

Lemma analyze_repo_total self repo w :
  ∃ r w',
    TestRunner.analyze_repo E self repo w = (Ok r, w')
    ∧ analyzed (VDict r)
    ∧ dget "repo" r = Some (VStr (name repo)).
Proof.
  rewrite analyze_repo_run, strict_clone_run.
  destruct (clone_stage _ _ _ _) as [[[[] text] fs] evs].
  - unfold TestRunner.read_readme.
    match goal with
    | |- context [TestRunner.read_readme_from ?d ?ps ?w1] =>
        destruct (read_readme_from_total d ps w1) as ([] & t & evs2 & -> & _)
    end; eexists _, _; (split; [reflexivity|]); split; try done; constructor.
  - eexists _, _. split; [reflexivity|]. split; [constructor|done].
Qed.

Lemma clone_succeeded_analyzed r w :
  analyzed r → TestRunner.clone_succeeded r w = (Ok (clone_ok r), w).
Proof. by destruct 1. Qed.

Lemma readme_found_analyzed r w :
  analyzed r → TestRunner.readme_found r w = (Ok (readme_ok r), w).
Proof. by destruct 1. Qed.

(** The loop of [run_tests] appends one result for each repository, in
    order, whatever failed on the way. *)
Lemma analysis_loop_total repos self w :
  ∃ rs w',
    TestRunner.analysis_loop E self repos w
    = (Ok (mkRunner (test_dir self) (results self ++ rs)), w')
    ∧ Forall analyzed rs
    ∧ Forall2 (λ repo r, repo_of r = Some (VStr (name repo))) repos rs.
Proof.
  unfold TestRunner.analysis_loop.
  revert self w. induction repos as [|repo repos IH]; intros self w.
  - exists [], w. rewrite app_nil_r. by destruct self.
  - cbn [for_each]. rewrite !bind_assoc, bind_run.
    destruct (analyze_repo_total self repo w) as (r & w1 & -> & Hr & Hname).
    mnorm. rewrite bind_write_text.
    mnorm. rewrite bind_run, clone_succeeded_analyzed by done.
    mnorm. rewrite bind_print. mnorm. rewrite bind_ret.
    match goal with
    | |- context [for_each repos ?s _ ?w2] =>
        destruct (IH s w2) as (rs & w' & -> & Hrs & Hnames)
    end.
    exists (VDict r :: rs), w'. cbn [test_dir results append_result].
    rewrite <- app_assoc. split; [done|]. split; by constructor.
Qed.

Lemma test_runthis_cli_total self repo w :
  ∃ r w' b,
    LiveTestRunner.test_runthis_cli E self repo w = (Ok r, w')
    ∧ dget "repo" r = Some (VStr (name repo))
    ∧ dget "failure_mode" r = Some (VBool b).
Proof.
  unfold LiveTestRunner.test_runthis_cli.
  rewrite bind_print. unfold bind at 1. unfold now at 1.
  cbn [w_fs w_tick w_out after].
  rewrite bind_run, live_clone_run. cbn [w_fs w_tick w_out].
  destruct (clone_stage _ _ _ _) as [[[[] text] fs] evs];
    [|by eexists _, _, _].
  cbn [negb]. rewrite bind_path_exists. cbn [w_fs after].
  destruct (present fs _).
  - mnorm. rewrite bind_ret, bind_run, detect_run.
    destruct (live_detected _ _) as [|dep deps'];
      by eexists _, _, _.
  - mnorm. rewrite bind_run, first_existing_run.
    destruct (find _ LiveTestRunner.readme_alternatives) as [alt|].
    + mnorm. rewrite bind_ret, bind_run, detect_run.
      destruct (live_detected _ _) as [|dep deps'];
        cbn -[path_join repo_path append];
        destruct (String.eqb (alt +:+ " found") "No README found");
        cbn -[path_join repo_path append];
        rewrite ?found_not_empty; cbn -[path_join repo_path append];
        by eexists _, _, _.
    + mnorm. rewrite bind_ret, bind_run, detect_run.
      destruct (live_detected _ _) as [|dep deps'];
        by eexists _, _, _.
Qed.

(** The loop of [run_live_tests] does the same. *)
Lemma test_loop_total repos self w :
  ∃ rs w',
    LiveTestRunner.test_loop E self repos w
    = (Ok (mkRunner (test_dir self) (results self ++ rs)), w')
    ∧ Forall2 (λ repo r, repo_of r = Some (VStr (name repo))) repos rs.
Proof.
  unfold LiveTestRunner.test_loop.
  revert self w. induction repos as [|repo repos IH]; intros self w.
  - exists [], w. rewrite app_nil_r. by destruct self.
  - cbn [for_each]. rewrite !bind_assoc, bind_run.
    destruct (test_runthis_cli_total self repo w)
      as (r & w1 & b & -> & Hname & Hmode).
    mnorm. rewrite bind_write_text.
    mnorm. unfold LiveTestRunner.in_failure_mode at 1.
    rewrite bind_assoc. unfold getitem at 1. rewrite Hmode.
    rewrite bind_ret. mnorm. rewrite bind_ret.
    mnorm. rewrite bind_print. mnorm. rewrite bind_ret.
    match goal with
    | |- context [for_each repos ?s _ ?w2] =>
        destruct (IH s w2) as (rs & w' & -> & Hnames)
    end.
    exists (VDict r :: rs), w'. cbn [test_dir results append_result].
    rewrite <- app_assoc. split; [done|]. by constructor.
Qed.

End Loops.

(** ** A failed stage *)

Lemma looked_at_absent fs repo_dir names :
  (∀ n, n ∈ names → present fs (repo_dir </> n) = false) →
  looked_at fs repo_dir names = names
  ∧ find (λ n, present fs (repo_dir </> n)) names = None.
Proof.
  induction names as [|n names IH]; intros Habs; [done|].
  cbn [looked_at find]. rewrite Habs by by left.
  destruct IH as [-> ->]; [|done]. intros m Hm. apply Habs. by right.
Qed.

(** The live variant after a clone that succeeded, in a directory with
    none of the README names. *)
Lemma live_missing_readme_run (E : Env) self repo w text fs evs :
  let repo_dir := repo_path (test_dir self) (name repo) in
  clone_stage E (test_dir self) (name repo) (w_fs w) = (true, text, fs, evs) →
  (∀ n, n ∈ "README.md" :: LiveTestRunner.readme_alternatives →
        present fs (repo_dir </> n) = false) →
  ∃ r ask install,
    LiveTestRunner.test_runthis_cli E self repo w
    = (Ok r,
       mkWorld fs (S (w_tick w))
         (w_out w
          ++ [EPrint (nl +:+ "Testing " +:+ name repo +:+ "...")]
          ++ evs
          ++ (EExists <$> (path_join repo_dir
                <$> "README.md" :: LiveTestRunner.readme_alternatives))
          ++ (EExists <$> (path_join repo_dir
                <$> concat ((λ entry : string * list string,
                               looked_at fs repo_dir entry.2)
                            <$> LiveTestRunner.deps)))))
    ∧ dget "would_readme" r = Some (VStr "No README found")
    ∧ dget "would_detect_deps" r
      = Some (match live_detected fs repo_dir with
              | [] => VStr "none detected"
              | _ => VList (map VStr (live_detected fs repo_dir))
              end)
    ∧ dget "would_ask_ai" r = Some (VDict ask)
    ∧ dget "expected_response" ask
      = Some (VDict (LiveTestRunner.expected_response repo
                       (live_detected fs repo_dir)))
    ∧ dget "would_install" r = Some (VStr install)
    ∧ dget "would_run" r
      = Some (VStr "Would execute the determined run command")
    ∧ dget "failure_mode" r = Some (VBool true).
Proof.
  intros repo_dir Hclone Habs.
  unfold LiveTestRunner.test_runthis_cli.
  rewrite bind_print. unfold bind at 1. unfold now at 1.
  cbn [w_fs w_tick w_out after].
  rewrite bind_run, live_clone_run. cbn [w_fs w_tick w_out].
  rewrite Hclone. cbn [negb]. fold repo_dir.
  rewrite bind_path_exists. cbn [w_fs after].
  rewrite Habs by by left. cbv beta iota.
  rewrite !bind_assoc, bind_run, first_existing_run. cbn [w_fs after].
  destruct (looked_at_absent fs repo_dir LiveTestRunner.readme_alternatives)
    as [Hlooked Hfind]; [intros n Hn; apply Habs; by right|].
  rewrite Hlooked, Hfind.
  rewrite bind_ret, bind_run, detect_run. cbn [w_fs after].
  match goal with
  | |- ∃ r ask install, _ ?w0 = (_, ?w1) ∧ _ =>
      replace w1 with w0;
        [generalize w0; intros w2
        |unfold after; cbn [w_fs w_tick w_out fmap list_fmap];
         by rewrite <- !app_assoc]
  end.
  destruct (live_detected fs repo_dir) as [|dep deps'];
    eexists _, _, _; (split; [reflexivity|]); by repeat split.
Qed.

(** C1, as the claim states it, fails in the live variant: with the
    repository cloned and no README in it, the live variant still looks
    for manifests and fills in the detected dependencies, the AI stub
    and the install and run fields. *)
Lemma live_goes_on_without_readme :
  let '(res, w') :=
    LiveTestRunner.test_runthis_cli Sample.env_fail Sample.self Sample.repo
      (Sample.world_of Sample.fs_makefile) in
  ∃ r ask,
    res = Ok r
    ∧ dget "would_readme" r = Some (VStr "No README found")
    ∧ dget "would_detect_deps" r = Some (VList [VStr "cpp (Makefile)"])
    ∧ dget "would_ask_ai" r = Some (VDict ask)
    ∧ dget "would_install" r
      = Some (VStr "Would run install command for: cpp (Makefile)")
    ∧ dget "would_run" r
      = Some (VStr "Would execute the determined run command")
    ∧ existsb (λ e, match e with
                    | EExists p => String.eqb p "/t/repos/o_r/Makefile"
                    | _ => false
                    end) (w_out w') = true.
Proof. vm_compute. eexists _, _. repeat split; reflexivity. Qed.

(** C1, amended.  In the threshold variant a failed clone ends the
    analysis of the repository with the result as it started and with
    no further effect, and a failed README lookup leaves
    [dependencies] and [action_plan] empty, the effects after the clone
    being looks at README names only.  In the live variant a failed
    clone ends the test of the repository with every [would_...] field
    but [would_clone] still [None]; a missing README does not: after
    the looks at the six README names the live variant looks for the
    manifests and fills in the detected dependencies, the AI stub and
    the install and run fields.  The loops of both variants give every
    repository of the list its result, in order. *)
Theorem stage_failure_ends_analysis
    (E : Env) (self : runner) (repo : Repo) (w : World)
    (ok : bool) (text : string) (fs : gmap string fnode) (evs : list event) :
  clone_stage E (test_dir self) (name repo) (w_fs w) = (ok, text, fs, evs) →
  let repo_dir := repo_path (test_dir self) (name repo) in
  let ts := clock E (w_tick w) in
  (∃ r evs',
      TestRunner.analyze_repo E self repo w
      = (Ok r,
         mkWorld fs (S (w_tick w))
           (w_out w
            ++ [EPrint (nl +:+ "Analyzing " +:+ name repo +:+ "...")]
            ++ evs ++ evs'))
      ∧ clone_ok (VDict r) = ok
      ∧ (ok = false →
         r = result_of (name repo) ts false (VStr text)
                       false VNone VNone [] []
         ∧ evs = [EExists repo_dir; ERun (clone_argv (test_dir self) (name repo))]
         ∧ evs' = [])
      ∧ (readme_ok (VDict r) = false →
         dget "dependencies" r = Some (VDict [])
         ∧ dget "action_plan" r = Some (VDict [])
         ∧ Forall (touches repo_dir TestRunner.readme_paths) evs'))
  ∧ (ok = false →
     LiveTestRunner.test_runthis_cli E self repo w
     = (Ok [ ("repo", VStr (name repo));
             ("timestamp", VStr ts);
             ("would_clone",
              VStr ("git clone --depth 1 https://github.com/"
                    +:+ name repo +:+ ".git"));
             ("would_readme", VNone);
             ("would_detect_deps", VNone);
             ("would_ask_ai", VNone);
             ("would_install", VNone);
             ("would_run", VNone);
             ("failure_mode", VBool true);
             ("failure_reason", VStr ("Failed to clone " +:+ name repo)) ],
        mkWorld fs (S (w_tick w))
          (w_out w
           ++ [EPrint (nl +:+ "Testing " +:+ name repo +:+ "...")]
           ++ [EExists repo_dir;
               ERun (clone_argv (test_dir self) (name repo))])))
  ∧ (ok = true →
     (∀ n, n ∈ "README.md" :: LiveTestRunner.readme_alternatives →
           present fs (repo_dir </> n) = false) →
     ∃ r ask install,
       LiveTestRunner.test_runthis_cli E self repo w
       = (Ok r,
          mkWorld fs (S (w_tick w))
            (w_out w
             ++ [EPrint (nl +:+ "Testing " +:+ name repo +:+ "...")]
             ++ evs
             ++ (EExists <$> (path_join repo_dir
                   <$> "README.md" :: LiveTestRunner.readme_alternatives))
             ++ (EExists <$> (path_join repo_dir
                   <$> concat ((λ entry : string * list string,
                                  looked_at fs repo_dir entry.2)
                               <$> LiveTestRunner.deps)))))
       ∧ dget "would_readme" r = Some (VStr "No README found")
       ∧ dget "would_detect_deps" r
         = Some (match live_detected fs repo_dir with
                 | [] => VStr "none detected"
                 | _ => VList (map VStr (live_detected fs repo_dir))
                 end)
       ∧ dget "would_ask_ai" r = Some (VDict ask)
       ∧ dget "expected_response" ask
         = Some (VDict (LiveTestRunner.expected_response repo
                          (live_detected fs repo_dir)))
       ∧ dget "would_install" r = Some (VStr install)
       ∧ dget "would_run" r
         = Some (VStr "Would execute the determined run command")
       ∧ dget "failure_mode" r = Some (VBool true))
  ∧ ∀ (repos : list Repo) (w0 : World),
      (∃ rs w',
          TestRunner.analysis_loop E self repos w0
          = (Ok (mkRunner (test_dir self) (results self ++ rs)), w')
          ∧ Forall2 (λ repo r, repo_of r = Some (VStr (name repo))) repos rs)
      ∧ (∃ rs w',
            LiveTestRunner.test_loop E self repos w0
            = (Ok (mkRunner (test_dir self) (results self ++ rs)), w')
            ∧ Forall2 (λ repo r, repo_of r = Some (VStr (name repo)))
                      repos rs).
Proof.
  intros Hclone repo_dir ts. split; [|split; [|split]].
  - rewrite analyze_repo_run, strict_clone_run. cbn [w_fs w_tick w_out].
    rewrite Hclone. destruct ok.
    + unfold TestRunner.read_readme.
      match goal with
      | |- context [TestRunner.read_readme_from ?d ?ps ?w1] =>
          destruct (read_readme_from_total d ps w1)
            as ([] & t & evs2 & -> & Hevs2)
      end.
      * eexists _, (evs2 ++ _). split.
        { rewrite after_after. unfold after. cbn [w_fs w_tick w_out].
          by rewrite <- !app_assoc. }
        by repeat split.
      * eexists _, evs2. split.
        { unfold after. cbn [w_fs w_tick w_out]. by rewrite <- !app_assoc. }
        by repeat split.
    + eexists _, []. split.
      { by rewrite app_nil_r, <- app_assoc. }
      split; [done|]. split; [|done]. intros _.
      by rewrite (clone_stage_failed _ _ _ _ _ _ _ Hclone).
  - intros ->. unfold LiveTestRunner.test_runthis_cli.
    rewrite bind_print. unfold bind at 1. unfold now at 1.
    cbn [w_fs w_tick w_out after].
    rewrite bind_run, live_clone_run. cbn [w_fs w_tick w_out].
    rewrite Hclone. cbn [negb].
    rewrite (clone_stage_failed _ _ _ _ _ _ _ Hclone).
    unfold ret. by rewrite <- app_assoc.
  - intros -> Habs. by apply (live_missing_readme_run E self repo w text).
  - intros repos w0. split.
    + destruct (analysis_loop_total E repos self w0)
        as (rs & w' & Hrun & _ & Hnames).
      by exists rs, w'.
    + apply test_loop_total.
Qed.

Lemma stage_failure_ends_analysis_witness :
  (∃ w',
      TestRunner.analyze_repo Sample.env_fail Sample.self Sample.repo
        Sample.empty_world
      = (Ok (result_of "o/r" "T0" false (VStr "fatal: repository not found")
                       false VNone VNone [] []), w'))
  ∧ (∃ r w',
        LiveTestRunner.test_runthis_cli Sample.env_fail Sample.self
          Sample.repo (Sample.world_of Sample.fs_makefile)
        = (Ok r, w')
        ∧ dget "would_readme" r = Some (VStr "No README found")
        ∧ dget "would_detect_deps" r
          = Some (VList [VStr "cpp (Makefile)"])).
Proof.
  split.
  - destruct (stage_failure_ends_analysis Sample.env_fail Sample.self
                Sample.repo Sample.empty_world false
                "fatal: repository not found" ∅
                [EExists "/t/repos/o_r";
                 ERun (clone_argv "/t" "o/r")])
      as [(r & evs' & Hrun & _ & Hfail & _) _].
    + vm_compute. reflexivity.
    + destruct (Hfail eq_refl) as (-> & _ & ->). eexists. exact Hrun.
  - destruct (stage_failure_ends_analysis Sample.env_fail Sample.self
                Sample.repo (Sample.world_of Sample.fs_makefile) true
                "Already cloned" Sample.fs_makefile
                [EExists "/t/repos/o_r"])
      as (_ & _ & Hlive & _).
    + vm_compute. reflexivity.
    + destruct Hlive as (r & ask & install & Hrun & Hreadme & Hdeps & _).
      * reflexivity.
      * intros n Hn. unfold LiveTestRunner.readme_alternatives in Hn.
        repeat (apply elem_of_cons in Hn as [->|Hn];
                [vm_compute; reflexivity|]).
        by apply elem_of_nil in Hn.
      * eexists _, _. split; [exact Hrun|]. split; [exact Hreadme|].
        rewrite Hdeps. vm_compute. reflexivity.
Defined.

(** ** The report of the threshold variant *)

Section Report.

Variable E : Env.

Lemma for_each_ok {A S} (P : A → Prop) (f : S → A → S)
    (body : S → A → M S) (l : list A) acc w :
  (∀ acc x w, P x → body acc x w = (Ok (f acc x), w)) →
  Forall P l →
  for_each l acc body w = (Ok (foldl f acc l), w).
Proof.
  intros Hbody Hl. revert acc. induction Hl as [|x l Hx Hl IH]; intros acc.
  - reflexivity.
  - cbn [for_each foldl]. rewrite bind_run, Hbody by done. apply IH.
Qed.

Lemma count_clones_ok rs w :
  Forall analyzed rs →
  ∃ n, count_if TestRunner.clone_succeeded rs w = (Ok n, w).
Proof.
  intros Hrs. eexists. unfold count_if.
  apply (for_each_ok analyzed
           (λ n r, if clone_ok r then n + 1 else n)); [|done].
  intros n r w0 Hr. by rewrite bind_run, clone_succeeded_analyzed.
Qed.

Lemma count_reads_ok rs w :
  Forall analyzed rs →
  ∃ n, count_if TestRunner.readme_found rs w = (Ok n, w).
Proof.
  intros Hrs. eexists. unfold count_if.
  apply (for_each_ok analyzed
           (λ n r, if readme_ok r then n + 1 else n)); [|done].
  intros n r w0 Hr. by rewrite bind_run, readme_found_analyzed.
Qed.

Lemma count_dependencies_ok rs w :
  Forall analyzed rs →
  ∃ d, TestRunner.count_dependencies rs w = (Ok d, w).
Proof.
  intros Hrs. eexists. unfold TestRunner.count_dependencies.
  set (inner := λ (dep_counts : dict) (item : string * pyval),
         if truthy item.2 && negb (String.eqb item.1 "other")
         then dset item.1
                (VInt (match dget item.1 dep_counts with
                       | Some v => TestRunner.count_of v
                       | None => 0
                       end + 1)) dep_counts
         else dep_counts).
  apply (for_each_ok analyzed
           (λ dep_counts r,
              match r with
              | VDict d => match dget "dependencies" d with
                           | Some (VDict items) => foldl inner dep_counts items
                           | _ => dep_counts
                           end
              | _ => dep_counts
              end)); [|done].
  intros dep_counts r w0 Hr.
  assert (Hinner : ∀ items acc w1,
             for_each items acc
               (λ (dep_counts : dict) (item : string * pyval),
                  let '(dep, found) := item in
                  if truthy found && negb (String.eqb dep "other")
                  then ret (dset dep
                              (VInt (match dget dep dep_counts with
                                     | Some v => TestRunner.count_of v
                                     | None => 0
                                     end + 1)) dep_counts)
                  else ret dep_counts) w1
             = (Ok (foldl inner acc items), w1)).
  { intros items acc w1.
    apply (for_each_ok (λ _, True)); [|by apply Forall_true].
    intros acc' [dep found] w2 _. unfold inner. cbn [fst snd].
    by destruct (truthy found && negb (String.eqb dep "other")). }
  destruct Hr; cbn [getitem dget result_of String.eqb Ascii.eqb Bool.eqb];
    rewrite bind_ret; cbn [py_items]; rewrite bind_ret; apply Hinner.
Qed.

Lemma sum_run_commands_step total r w :
  analyzed r →
  (complete r →
   ∃ n, (plan <- getitem r "action_plan" ;;
         cmds <- getitem plan "run_commands" ;;
         n <- py_len cmds ;;
         ret (total + n)) w = (Ok (total + n), w))
  ∧ (¬ complete r →
     (plan <- getitem r "action_plan" ;;
      cmds <- getitem plan "run_commands" ;;
      n <- py_len cmds ;;
      ret (total + n)) w = (Raise (KeyError "run_commands"), w)).
Proof.
  destruct 1; (split; [intros [Hc Hr]|intros Hn]); try done.
  - eexists. reflexivity.
  - destruct Hn. by split.
Qed.

Lemma sum_run_commands_ok rs w :
  Forall analyzed rs → Forall complete rs →
  ∃ n, TestRunner.sum_run_commands rs w = (Ok n, w).
Proof.
  unfold TestRunner.sum_run_commands. generalize 0.
  intros total Hrs Hall. revert total.
  induction Hrs as [|r rs Hr Hrs IH]; intros total.
  - by eexists.
  - apply Forall_cons in Hall as [Hc Hall]. cbn [for_each].
    rewrite bind_run.
    destruct (sum_run_commands_step total r w Hr) as [Hok _].
    destruct (Hok Hc) as [n ->]. by apply IH.
Qed.

Lemma sum_run_commands_raises rs w :
  Forall analyzed rs → Exists (λ r, ¬ complete r) rs →
  TestRunner.sum_run_commands rs w = (Raise (KeyError "run_commands"), w).
Proof.
  unfold TestRunner.sum_run_commands. generalize 0.
  intros total Hrs Hex. revert total.
  induction Hrs as [|r rs Hr Hrs IH]; intros total.
  - by apply Exists_nil in Hex.
  - cbn [for_each]. rewrite bind_run.
    destruct (sum_run_commands_step total r w Hr) as [Hok Hraise].
    destruct (decide (clone_ok r = true ∧ readme_ok r = true)) as [Hc|Hn].
    + destruct (Hok Hc) as [n ->]. apply IH.
      apply Exists_cons in Hex as [Hex|Hex]; [by destruct Hex|done].
    + by rewrite (Hraise Hn).
Qed.

End Report.

(** C9.  After the loop of [run_tests], a result whose clone or README
    stage failed has the empty dictionary as [action_plan]; if there is
    such a result, [generate_report] raises [KeyError] for
    [run_commands], and it returns a report when every result has gone
    through all stages. *)
Theorem report_needs_every_plan
    (E : Env) (dir : string) (repos : list Repo) (w : World) :
  ∃ rs w1,
    TestRunner.analysis_loop E (mkRunner dir []) repos w
    = (Ok (mkRunner dir rs), w1)
    ∧ Forall (λ r, clone_ok r = false ∨ readme_ok r = false →
                   repo_plan r = Some (VDict [])) rs
    ∧ ∀ w2,
        (Exists (λ r, clone_ok r = false ∨ readme_ok r = false) rs →
         ∃ w3, TestRunner.generate_report E (mkRunner dir rs) w2
               = (Raise (KeyError "run_commands"), w3))
        ∧ (Forall complete rs →
           ∃ report w3, TestRunner.generate_report E (mkRunner dir rs) w2
                        = (Ok report, w3)).
Proof.
  destruct (analysis_loop_total E repos (mkRunner dir []) w)
    as (rs & w1 & Hrun & Hrs & _).
  exists rs, w1. split; [done|]. split.
  { eapply Forall_impl; [exact Hrs|]. intros r Hr Hfail.
    destruct Hr; [done|done|]. by destruct Hfail. }
  intros w2.
  set (w2' := mkWorld (w_fs w2) (S (w_tick w2)) (w_out w2)).
  destruct (count_clones_ok rs w2 Hrs) as [clones Hclones].
  destruct (count_reads_ok rs w2 Hrs) as [reads Hreads].
  destruct (count_dependencies_ok rs w2' Hrs) as [counts Hcounts].
  split.
  - intros Hex.
    assert (Hpos : (0 <? Z.of_nat (length rs)) = true).
    { destruct rs; [by apply Exists_nil in Hex|]. by apply Z.ltb_lt. }
    assert (Hsum : TestRunner.sum_run_commands rs w2'
                   = (Raise (KeyError "run_commands"), w2')).
    { apply sum_run_commands_raises; [done|].
      eapply Exists_impl; [exact Hex|]. intros r Hfail [Hc Hr].
      destruct Hfail; congruence. }
    exists w2'.
    unfold TestRunner.generate_report, TestRunner._aggregate_dependencies.
    cbn [results test_dir].
    rewrite bind_run, Hclones. mnorm. rewrite bind_run, Hreads. mnorm.
    unfold bind at 1. unfold now at 1. fold w2'.
    mnorm. rewrite bind_run, Hcounts. mnorm. rewrite bind_ret.
    rewrite Hpos. mnorm. by rewrite bind_run, Hsum.
  - intros Hall.
    unfold TestRunner.generate_report, TestRunner._aggregate_dependencies.
    cbn [results test_dir].
    rewrite bind_run, Hclones. mnorm. rewrite bind_run, Hreads. mnorm.
    unfold bind at 1. unfold now at 1. fold w2'.
    mnorm. rewrite bind_run, Hcounts. mnorm. rewrite bind_ret.
    destruct (0 <? Z.of_nat (length rs)).
    + destruct (sum_run_commands_ok rs w2' Hrs Hall) as [n Hn].
      mnorm. rewrite bind_run, Hn. mnorm. rewrite bind_ret.
      rewrite bind_write_text. by eexists _, _.
    + rewrite bind_ret, bind_write_text. by eexists _, _.
Qed.

Lemma report_needs_every_plan_witness :
  ∃ w3,
    TestRunner.generate_report Sample.env_fail
      (mkRunner "/t"
         [VDict (result_of "o/r" "T0" false
                   (VStr "fatal: repository not found")
                   false VNone VNone [] [])])
      Sample.empty_world
    = (Raise (KeyError "run_commands"), w3).
Proof.
  destruct (report_needs_every_plan Sample.env_fail "/t" [Sample.repo]
              Sample.empty_world) as (rs & w1 & Hrun & _ & Hreport).
  vm_compute in Hrun. injection Hrun as <- _.
  apply Hreport. left. by left.
Defined.

(** * Further properties of the harnesses *)

(** ** README lookup of the threshold variant *)

Section ReadReadme.

Lemma read_readme_from_first repo_dir (before rest : list string) n w :
  (∀ m, m ∈ before → present (w_fs w) (repo_dir </> m) = false) →
  present (w_fs w) (repo_dir </> n) = true →
  TestRunner.read_readme_from repo_dir (before ++ n :: rest) w
  = (Ok match w_fs w !! (repo_dir </> n) with
        | Some (FText t) => (true, t)
        | Some (FBad err) => (false, err)
        | Some FDir =>
            (false, "[Errno 21] Is a directory: '" +:+ (repo_dir </> n) +:+ "'")
        | None =>
            (false, "[Errno 2] No such file or directory: '"
                    +:+ (repo_dir </> n) +:+ "'")
        end,
     after w ((EExists <$> (path_join repo_dir <$> before ++ [n]))
              ++ [EReadText (repo_dir </> n)])).
Proof.
  revert w. induction before as [|m before IH]; intros w Habs Hn.
  - cbn [app TestRunner.read_readme_from]. rewrite bind_path_exists, Hn.
    unfold try_except, bind, read_text. cbn [w_fs after].
    destruct (w_fs w !! (repo_dir </> n)) as [[|t|err]|];
      unfold ret, emit, after; cbn; by rewrite <- app_assoc.
  - cbn [app TestRunner.read_readme_from]. rewrite bind_path_exists.
    rewrite Habs by by left.
    rewrite IH; [|intros; apply Habs; by right|done].
    cbn [w_fs after]. by rewrite after_after.
Qed.

End ReadReadme.

(** X1.  [read_readme] returns the text of the first README name, in
    the order [README.md], [readme.md], [README], [readme], that
    exists, and looks at no later name. *)
Theorem read_readme_first_existing
    (self : runner) (repo_dir : string) (w : World)
    (before rest : list string) (n text : string) :
  TestRunner.readme_paths = before ++ n :: rest →
  (∀ m, m ∈ before → present (w_fs w) (repo_dir </> m) = false) →
  w_fs w !! (repo_dir </> n) = Some (FText text) →
  TestRunner.read_readme self repo_dir w
  = (Ok (true, text),
     after w ((EExists <$> (path_join repo_dir <$> before ++ [n]))
              ++ [EReadText (repo_dir </> n)])).
Proof.
  intros Hpaths Habs Hn. unfold TestRunner.read_readme. rewrite Hpaths.
  rewrite read_readme_from_first; [by rewrite Hn|done|].
  unfold present. rewrite Hn. by apply bool_decide_eq_true_2.
Qed.

Lemma read_readme_first_existing_witness :
  fst (TestRunner.read_readme Sample.self "/t/repos/o_r"
         (Sample.world_of Sample.fs_readme))
  = Ok (true, "`npm run build`").
Proof.
  rewrite (read_readme_first_existing Sample.self "/t/repos/o_r"
             (Sample.world_of Sample.fs_readme)
             [] ["readme.md"; "README"; "readme"] "README.md"
             "`npm run build`"); try reflexivity.
  intros m Hm. by apply elem_of_nil in Hm.
Defined.

(** X2.  When the first README name that exists cannot be read,
    [read_readme] returns failure with the text of the error and does
    not try the names after it, readable or not. *)
Theorem read_readme_stops_at_unreadable
    (self : runner) (repo_dir : string) (w : World)
    (before rest : list string) (n err : string) :
  TestRunner.readme_paths = before ++ n :: rest →
  (∀ m, m ∈ before → present (w_fs w) (repo_dir </> m) = false) →
  w_fs w !! (repo_dir </> n) = Some (FBad err) →
  TestRunner.read_readme self repo_dir w
  = (Ok (false, err),
     after w ((EExists <$> (path_join repo_dir <$> before ++ [n]))
              ++ [EReadText (repo_dir </> n)])).
Proof.
  intros Hpaths Habs Hn. unfold TestRunner.read_readme. rewrite Hpaths.
  rewrite read_readme_from_first; [by rewrite Hn|done|].
  unfold present. rewrite Hn. by apply bool_decide_eq_true_2.
Qed.

Lemma read_readme_stops_at_unreadable_witness :
  fst (TestRunner.read_readme Sample.self "/t/repos/o_r"
         (Sample.world_of
            (<[ "/t/repos/o_r/readme.md" := FText "Run: npm start" ]>
               (<[ "/t/repos/o_r/README.md" := FBad "Permission denied" ]>
                  Sample.fs_bare))))
  = Ok (false, "Permission denied").
Proof.
  rewrite (read_readme_stops_at_unreadable Sample.self "/t/repos/o_r" _
             [] ["readme.md"; "README"; "readme"] "README.md"
             "Permission denied"); try reflexivity.
  intros m Hm. by apply elem_of_nil in Hm.
Defined.

(** ** Setting up *)

Section Setup.

Lemma made_keeps p fs q node :
  fs !! q = Some node → made p fs !! q = Some node.
Proof.
  intros Hq. unfold made. destruct (fs !! p) eqn:Hp; [done|].
  rewrite lookup_insert_ne; [done|]. by intros ->; rewrite Hp in Hq.
Qed.

Lemma made_present p fs : present (made p fs) p = true.
Proof.
  unfold present, made. apply bool_decide_eq_true_2.
  destruct (fs !! p) eqn:Hp; [by rewrite Hp|by rewrite lookup_insert_eq].
Qed.

Lemma made_present_mono p fs q :
  present fs q = true → present (made p fs) q = true.
Proof.
  unfold present. intros [node Hq]%bool_decide_eq_true_1.
  apply bool_decide_eq_true_2. exists node. by apply made_keeps.
Qed.

Lemma made_present_inv p fs q :
  present (made p fs) q = true → present fs q = true ∨ q = p.
Proof.
  unfold present, made. destruct (fs !! p) eqn:Hp; [by left|].
  destruct (decide (p = q)) as [->|Hne]; [by right|].
  rewrite lookup_insert_ne by done. by left.
Qed.

Lemma made_dir p fs :
  fs !! p = None ∨ fs !! p = Some FDir → made p fs !! p = Some FDir.
Proof.
  unfold made. intros [Hp|Hp]; rewrite Hp; [by rewrite lookup_insert_eq|done].
Qed.

Lemma made_dir_mono p fs q :
  fs !! q = None ∨ fs !! q = Some FDir →
  made p fs !! q = None ∨ made p fs !! q = Some FDir.
Proof.
  unfold made. destruct (fs !! p) eqn:Hp; [done|].
  destruct (decide (p = q)) as [->|Hne].
  - rewrite lookup_insert_eq. by right.
  - by rewrite lookup_insert_ne.
Qed.

Lemma made_same p fs : present fs p = true → made p fs = fs.
Proof.
  unfold present, made. intros [node Hp]%bool_decide_eq_true_1.
  by rewrite Hp.
Qed.

Lemma setup_run self w :
  TestRunner.setup self w
  = (Ok tt,
     mkWorld (foldl (λ fs d, made d fs) (w_fs w) (work_dirs (test_dir self)))
             (w_tick w) (w_out w ++ (EMkdir <$> work_dirs (test_dir self)))).
Proof.
  unfold TestRunner.setup, bind, mkdir, emit, with_fs, made, work_dirs.
  cbn. by rewrite <- !app_assoc.
Qed.

End Setup.

(** X3.  Run in a test directory that is there already, with each of
    [logs], [reports] and [repos] absent or a directory, [setup] of
    either variant returns with the four working directories in
    place, keeps every file that was there, adds no other path, and
    leaves the files as they are when it is run again. *)
Theorem setup_makes_dirs_once (self : runner) (w : World) :
  w_fs w !! test_dir self = Some FDir →
  Forall (λ d, w_fs w !! d = None ∨ w_fs w !! d = Some FDir)
         (work_dirs (test_dir self)) →
  ∃ w',
    TestRunner.setup self w = (Ok tt, w')
    ∧ LiveTestRunner.setup self w = (Ok tt, w')
    ∧ Forall (λ d, w_fs w' !! d = Some FDir) (work_dirs (test_dir self))
    ∧ (∀ p node, w_fs w !! p = Some node → w_fs w' !! p = Some node)
    ∧ (∀ p, present (w_fs w') p = true →
            present (w_fs w) p = true ∨ p ∈ work_dirs (test_dir self))
    ∧ w_fs (snd (TestRunner.setup self w')) = w_fs w'.
Proof.
  intros _ Hdirs.
  eexists. split; [apply setup_run|]. split; [apply setup_run|].
  cbn [w_fs work_dirs foldl]. split; [|split; [|split]].
  - unfold work_dirs in Hdirs.
    repeat match goal with
           | H : Forall _ (_ :: _) |- _ => apply Forall_cons in H as [? H]
           end.
    repeat constructor;
      repeat first [ apply made_dir; by repeat apply made_dir_mono
                   | apply made_keeps ].
  - intros p node Hp. by do 4 apply made_keeps.
  - intros p Hp.
    repeat (apply made_present_inv in Hp as [Hp| ->]; [|set_solver]).
    by left.
  - rewrite setup_run. cbn [snd w_fs work_dirs foldl].
    rewrite (made_same (test_dir self));
      [|repeat first [apply made_present | apply made_present_mono]].
    rewrite (made_same (test_dir self </> "logs"));
      [|repeat first [apply made_present | apply made_present_mono]].
    rewrite (made_same (test_dir self </> "reports"));
      [|repeat first [apply made_present | apply made_present_mono]].
    rewrite (made_same (test_dir self </> "repos")); [done|].
    apply made_present.
Qed.

Lemma setup_makes_dirs_once_witness :
  ∃ w',
    TestRunner.setup Sample.self
      (Sample.world_of
         (<[ "/t" := FDir ]> (<[ "/t/repos" := FDir ]> Sample.fs_bare)))
    = (Ok tt, w')
    ∧ w_fs w' !! "/t/logs" = Some FDir
    ∧ w_fs w' !! "/t/repos/o_r" = Some FDir.
Proof.
  destruct (setup_makes_dirs_once Sample.self
              (Sample.world_of
                 (<[ "/t" := FDir ]> (<[ "/t/repos" := FDir ]> Sample.fs_bare))))
    as (w' & Hrun & _ & Hdirs & Hkeeps & _).
  - vm_compute. reflexivity.
  - repeat constructor;
      first [by left; vm_compute | by right; vm_compute].
  - exists w'. split; [exact Hrun|]. split.
    + unfold work_dirs in Hdirs.
      by apply Forall_cons in Hdirs as [_ [Hlogs _]%Forall_cons].
    + apply Hkeeps. vm_compute. reflexivity.
Defined.

(** ** Cloning: what [git] does, and where the clone lands *)

(** X4.  Once the look at the destination has returned [False],
    [clone_repo] of either variant returns whatever [subprocess.run]
    does: an exception becomes a failure, with its text in the
    threshold variant; otherwise the clone succeeds exactly when [git]
    exits with 0, and the threshold variant returns its output followed
    by its errors.  The two variants agree on success and on every
    effect, the one subprocess. *)
Theorem clone_repo_catches_git_errors
    (E : Env) (self : runner) (repo : string) (w w1 : World) :
  let dest := repo_path (test_dir self) repo in
  let argv := clone_argv (test_dir self) repo in
  path_exists dest w = (Ok false, w1) →
  ∃ ok text,
    let w' := mkWorld (snd (run_process E argv (w_fs w1))) (w_tick w1)
                      (w_out w1 ++ [ERun argv]) in
    TestRunner.clone_repo E self repo w = (Ok (ok, text), w')
    ∧ LiveTestRunner.clone_repo E self repo w = (Ok (ok, dest), w')
    ∧ match fst (run_process E argv (w_fs w1)) with
      | Completed rc out err => ok = (rc =? 0) ∧ text = out +:+ err
      | Failed msg => ok = false ∧ text = msg
      end.
Proof.
  intros dest argv. rewrite path_exists_run. intros [= Hdest <-].
  rewrite strict_clone_run, live_clone_run.
  unfold clone_stage. fold dest argv. rewrite Hdest.
  cbn [w_fs w_tick w_out after].
  destruct (run_process E argv (w_fs w)) as [[rc out err|msg] fs'];
    eexists _, _; cbn [fst snd]; by rewrite <- !app_assoc.
Qed.

Lemma clone_repo_catches_git_errors_witness :
  TestRunner.clone_repo Sample.env_fail Sample.self "o/r" Sample.empty_world
  = (Ok (false, "fatal: repository not found"),
     mkWorld ∅ 0 [EExists "/t/repos/o_r"; ERun (clone_argv "/t" "o/r")]).
Proof.
  destruct (clone_repo_catches_git_errors Sample.env_fail Sample.self "o/r"
              Sample.empty_world
              (after Sample.empty_world [EExists "/t/repos/o_r"]))
    as (ok & text & Hrun & _ & Hgit).
  - vm_compute. reflexivity.
  - rewrite Hrun. vm_compute in Hgit. destruct Hgit as [-> ->].
    vm_compute. reflexivity.
Defined.

Lemma replace_char_plain repo :
  Str.contains "/" (Str.replace_char "/" "_" repo) = false
  ∧ String.length (Str.replace_char "/" "_" repo) = String.length repo.
Proof.
  induction repo as [|c repo [IH1 IH2]]; [done|].
  cbn [Str.replace_char String.length Str.contains String.prefix].
  rewrite IH1, IH2. split; [|done].
  destruct (Ascii.eqb c "/") eqn:Hc; [done|].
  destruct (ascii_dec "/" c) as [<-|Hne]; [by rewrite Ascii.eqb_refl in Hc|].
  done.
Qed.

Lemma replace_char_dot c repo :
  Str.replace_char "/" "_" repo = String "." c → ∃ c', repo = String "." c'
    ∧ Str.replace_char "/" "_" c' = c.
Proof.
  destruct repo as [|a repo]; [done|]. cbn [Str.replace_char].
  destruct (Ascii.eqb a "/") eqn:Ha; [done|].
  intros [= -> <-]. by eexists.
Qed.

(** X5.  For a repository name that is not empty, [.] or [..], the
    clone lands directly under [repos]: the destination is [repos]
    followed by one component, which has no slash, is not empty, [.] or
    [..], and is as long as the name. *)
Theorem repo_dir_is_child_of_repos (test_dir repo : string) :
  repo ≠ "" → repo ≠ "." → repo ≠ ".." →
  ∃ leaf,
    repo_path test_dir repo = (test_dir </> "repos") </> leaf
    ∧ Str.contains "/" leaf = false
    ∧ leaf ≠ "" ∧ leaf ≠ "." ∧ leaf ≠ ".."
    ∧ String.length leaf = String.length repo.
Proof.
  intros Hempty Hdot Hdots. exists (Str.replace_char "/" "_" repo).
  destruct (replace_char_plain repo) as [Hslash Hlen].
  split; [done|]. split; [done|]. repeat split; [| | |done].
  - intros Heq. rewrite Heq in Hlen. by destruct repo.
  - intros (c' & -> & Hc')%replace_char_dot. by destruct c'.
  - intros (c' & -> & (c'' & -> & Hc'')%replace_char_dot)%replace_char_dot.
    by destruct c''.
Qed.

Lemma repo_dir_is_child_of_repos_witness :
  ∃ leaf,
    repo_path "/t" "o/r" = "/t/repos" </> leaf
    ∧ Str.contains "/" leaf = false.
Proof.
  destruct (repo_dir_is_child_of_repos "/t" "o/r") as (leaf & Hpath & Hslash & _);
    [done|done|done|].
  exists leaf. split; [exact Hpath|exact Hslash].
Defined.

(** ** Stripping *)

Section Stripping.

Variable p : ascii → bool.

Lemma rstrip_by_fix s : Str.rstrip_by p (Str.rstrip_by p s) = Str.rstrip_by p s.
Proof.
  induction s as [|c s IH]; [done|]. cbn [Str.rstrip_by].
  destruct (p c && Str.is_empty (Str.rstrip_by p s)) eqn:Hc; [done|].
  cbn [Str.rstrip_by]. by rewrite IH, Hc.
Qed.

Lemma lstrip_by_head s :
  match Str.lstrip_by p s with
  | EmptyString => True
  | String c _ => p c = false
  end.
Proof.
  induction s as [|c s IH]; [done|]. cbn [Str.lstrip_by].
  by destruct (p c) eqn:Hc.
Qed.

Lemma strip_by_fix s : Str.strip_by p (Str.strip_by p s) = Str.strip_by p s.
Proof.
  unfold Str.strip_by. pose proof (lstrip_by_head s) as Hhead.
  destruct (Str.lstrip_by p s) as [|c t]; [done|].
  cbn [Str.rstrip_by]. rewrite Hhead. cbn [andb Str.lstrip_by].
  rewrite Hhead. cbn [Str.rstrip_by]. rewrite Hhead. cbn [andb].
  by rewrite rstrip_by_fix.
Qed.

End Stripping.

(** X6.  Every command of [run_commands] is stripped: [str.strip]
    leaves it as it is, so it neither starts nor ends with white
    space. *)
Theorem run_commands_are_stripped (readme cmd : string) :
  cmd ∈ Plan.run_commands readme → Str.strip cmd = cmd.
Proof.
  rewrite run_commands_spec. intros Hin%subseteq_take.
  apply list_elem_of_omap in Hin as (line & _ & Hc).
  destruct (candidate_Some _ _ Hc) as [-> _].
  apply strip_by_fix.
Qed.

Lemma run_commands_are_stripped_witness :
  Str.strip "npm run build" = "npm run build".
Proof.
  apply (run_commands_are_stripped Sample.readme_build).
  apply (bool_decide_unpack _). vm_compute. exact I.
Defined.

(** ** Reports: the empty list, and what a returned report says *)

Section Counting.

Lemma count_if_run (cond : pyval → M bool) (b : pyval → bool)
    (P : pyval → Prop) rs w :
  (∀ r w, P r → cond r w = (Ok (b r), w)) →
  Forall P rs →
  count_if cond rs w
  = (Ok (foldl (λ n r, if b r then n + 1 else n) 0 rs), w).
Proof.
  intros Hcond Hrs. unfold count_if.
  apply (for_each_ok P (λ n r, if b r then n + 1 else n)); [|done].
  intros n r w0 Hr. by rewrite bind_run, Hcond.
Qed.

Lemma count_all (b : pyval → bool) rs a :
  Forall (λ r, b r = true) rs →
  foldl (λ n r, if b r then n + 1 else n) a rs = a + Z.of_nat (length rs).
Proof.
  intros Hrs. revert a. induction Hrs as [|r rs Hr Hrs IH]; intros a.
  - simpl. lia.
  - cbn [foldl length]. rewrite Hr, IH. lia.
Qed.

Lemma count_bounds (b : pyval → bool) rs a :
  a ≤ foldl (λ n r, if b r then n + 1 else n) a rs ≤ a + Z.of_nat (length rs).
Proof.
  revert a. induction rs as [|r rs IH]; intros a.
  - simpl. lia.
  - cbn [foldl length]. destruct (b r).
    + specialize (IH (a + 1)). lia.
    + specialize (IH a). lia.
Qed.

End Counting.

#[global] Instance complete_dec r : Decision (complete r).
Proof. unfold complete. apply _. Defined.

(** X7.  With no repository in the list both variants still make
    their report, with the success rate and the average the integer 0
    and no division; the threshold [main] then returns 1 and the live
    [main] returns 0. *)
Theorem empty_list_exit_codes (E : Env) (w : World) :
  fst (TestRunner.main_on E [] w) = Ok 1
  ∧ fst (LiveTestRunner.main_on E [] w) = Ok 0
  ∧ (∃ report,
        fst (TestRunner.generate_report E (mkRunner "/tmp/runthis_tests" []) w)
        = Ok report
        ∧ dget "total_repos" report = Some (VInt 0)
        ∧ dget "success_rate" report = Some (VInt 0)
        ∧ field2 "summary" "avg_run_commands" (VDict report) = Some (VInt 0)
        ∧ field2 "summary" "most_common_deps" (VDict report)
          = Some (VDict []))
  ∧ (∃ report,
        fst (LiveTestRunner.generate_report E
               (mkRunner "/tmp/runthis_live_tests" []) w)
        = Ok report
        ∧ dget "total_repos" report = Some (VInt 0)
        ∧ dget "failures" report = Some (VInt 0)
        ∧ dget "success_rate" report = Some (VInt 0)
        ∧ dget "failure_modes" report = Some (VList [])).
Proof.
  split; [reflexivity|]. split; [reflexivity|].
  split; eexists; (split; [reflexivity|]); by repeat split.
Qed.

(** X8.  When [generate_report] of the threshold variant returns for
    the results of the loop, every repository has gone through all
    stages, and the report counts every repository as cloned and as
    read: [total_repos], [successful_clones] and [successful_reads] are
    the length of the list. *)
Theorem returned_report_counts_all
    (E : Env) (dir : string) (repos : list Repo) (w : World) :
  ∃ rs w1,
    TestRunner.analysis_loop E (mkRunner dir []) repos w
    = (Ok (mkRunner dir rs), w1)
    ∧ length rs = length repos
    ∧ ∀ w2 report w3,
        TestRunner.generate_report E (mkRunner dir rs) w2 = (Ok report, w3) →
        let n := VInt (Z.of_nat (length repos)) in
        Forall complete rs
        ∧ dget "total_repos" report = Some n
        ∧ dget "successful_clones" report = Some n
        ∧ dget "successful_reads" report = Some n
        ∧ dget "results" report = Some (VList rs).
Proof.
  destruct (analysis_loop_total E repos (mkRunner dir []) w)
    as (rs & w1 & Hrun & Hrs & Hnames).
  exists rs, w1. split; [done|].
  assert (Hlen : length rs = length repos).
  { symmetry. by eapply Forall2_length. }
  split; [done|]. intros w2 report w3.
  set (w2' := mkWorld (w_fs w2) (S (w_tick w2)) (w_out w2)).
  destruct (count_dependencies_ok rs w2' Hrs) as [counts Hcounts].
  unfold TestRunner.generate_report, TestRunner._aggregate_dependencies.
  cbn [results test_dir].
  rewrite bind_run,
    (count_if_run TestRunner.clone_succeeded clone_ok analyzed)
    by (done || apply clone_succeeded_analyzed).
  mnorm.
  rewrite bind_run,
    (count_if_run TestRunner.readme_found readme_ok analyzed)
    by (done || apply readme_found_analyzed).
  mnorm. unfold bind at 1. unfold now at 1. fold w2'.
  mnorm. rewrite bind_run, Hcounts. mnorm. rewrite bind_ret.
  destruct (decide (Forall complete rs)) as [Hall|Hnot].
  - assert (Hc : Forall (λ r, clone_ok r = true) rs).
    { eapply Forall_impl; [exact Hall|]. by intros r [? ?]. }
    assert (Hr : Forall (λ r, readme_ok r = true) rs).
    { eapply Forall_impl; [exact Hall|]. by intros r [? ?]. }
    rewrite !count_all by done. rewrite Z.add_0_l, Hlen.
    destruct (0 <? Z.of_nat (length repos)).
    + destruct (sum_run_commands_ok rs w2' Hrs Hall) as [s Hs].
      mnorm. rewrite bind_run, Hs. mnorm. rewrite bind_ret.
      rewrite bind_write_text. intros [= <- _]. by repeat split.
    + rewrite bind_ret, bind_write_text. intros [= <- _]. by repeat split.
  - apply not_Forall_Exists in Hnot; [|apply _].
    assert (Hpos : (0 <? Z.of_nat (length rs)) = true).
    { destruct rs; [by apply Exists_nil in Hnot|]. by apply Z.ltb_lt. }
    rewrite Hpos. mnorm.
    rewrite bind_run, sum_run_commands_raises by done.
    by intros [=].
Qed.

Lemma returned_report_counts_all_witness :
  ∃ rs report,
    returned (TestRunner.analysis_loop Sample.env_fail (mkRunner "/t" [])
                [Sample.repo] (Sample.world_of Sample.fs_readme))
    = Some (mkRunner "/t" rs)
    ∧ fst (TestRunner.generate_report Sample.env_fail (mkRunner "/t" rs)
             Sample.empty_world) = Ok report
    ∧ dget "successful_clones" report = Some (VInt 1).
Proof.
  destruct (returned_report_counts_all Sample.env_fail "/t" [Sample.repo]
              (Sample.world_of Sample.fs_readme))
    as (rs & w1 & Hrun & Hlen & Hreport).
  exists rs.
  destruct (TestRunner.generate_report Sample.env_fail (mkRunner "/t" rs)
              Sample.empty_world) as [[report|e] w3] eqn:Hgen.
  - exists report. split; [unfold returned; by rewrite Hrun|].
    split; [done|].
    by destruct (Hreport _ _ _ Hgen) as (_ & _ & Hclones & _).
  - exfalso. vm_compute in Hrun. injection Hrun as <- _.
    vm_compute in Hgen. discriminate Hgen.
Defined.

(** ** Printing the report of the threshold variant *)

(** X9.  [print_report] of the threshold variant prints a result in
    full only when every stage ran for it.  For a result whose clone or
    README stage failed it prints the name and the three lines for
    clone, README and dependencies and then raises [KeyError] for
    [run_commands]. *)
Theorem print_result_needs_plan (E : Env) (r : pyval) (w : World) :
  analyzed r →
  (complete r → ∃ w', TestRunner.print_result E r w = (Ok tt, w'))
  ∧ (¬ complete r →
     ∃ lines,
       length lines = 4%nat
       ∧ TestRunner.print_result E r w
         = (Raise (KeyError "run_commands"), after w (EPrint <$> lines))).
Proof.
  intros Hr. split.
  - intros Hc. destruct Hr; [by destruct Hc|by destruct Hc|].
    unfold TestRunner.print_result.
    cbn -[Plan.run_commands Plan.dry_run_notes Plan.install_plan detected
          append Str.join filter].
    destruct (Plan.run_commands text) as [|c cs]; by eexists.
  - intros Hn. destruct Hr; [| |by destruct Hn].
    + eexists [_; _; _; _]. split; [done|].
      unfold TestRunner.print_result, bind, print, emit, after.
      cbn -[append]. by rewrite <- !app_assoc.
    + eexists [_; _; _; _]. split; [done|].
      unfold TestRunner.print_result, bind, print, emit, after.
      cbn -[append]. by rewrite <- !app_assoc.
Qed.

Lemma print_result_needs_plan_witness :
  ∃ w',
    TestRunner.print_result Sample.env_fail
      (VDict (result_of "o/r" "T0" false (VStr "fatal: repository not found")
                        false VNone VNone [] []))
      Sample.empty_world
    = (Raise (KeyError "run_commands"), w').
Proof.
  destruct (print_result_needs_plan Sample.env_fail
              (VDict (result_of "o/r" "T0" false
                        (VStr "fatal: repository not found")
                        false VNone VNone [] []))
              Sample.empty_world) as [_ Hraise]; [constructor|].
  destruct Hraise as (lines & _ & ->); [by intros [? _]|].
  by eexists.
Defined.

(** ** The histogram of dependencies *)

Section Histogram.

Lemma dget_dset k k' v d :
  dget k (dset k' v d) = if String.eqb k k' then Some v else dget k d.
Proof.
  destruct (String.eqb k k') eqn:Hk.
  - apply String.eqb_eq in Hk as ->. apply dget_dset_eq.
  - by apply dget_dset_ne.
Qed.

Lemma dget_None k d : dget k d = None ↔ k ∉ fst <$> d.
Proof.
  induction d as [|[k' v] d IH]; simpl.
  - split; [intros _; apply not_elem_of_nil|done].
  - rewrite not_elem_of_cons. destruct (String.eqb_spec k k') as [->|Hne].
    + split; [done|]. by intros [? _].
    + rewrite IH. tauto.
Qed.

Lemma dget_elem_of k v d : dget k d = Some v → (k, v) ∈ d.
Proof.
  induction d as [|[k' v'] d IH]; simpl; [done|].
  destruct (String.eqb_spec k k') as [->|Hne].
  - intros [= ->]. by left.
  - intros ?. right. by apply IH.
Qed.

Lemma elem_of_dget k v d : NoDup (fst <$> d) → (k, v) ∈ d → dget k d = Some v.
Proof.
  induction d as [|[k' v'] d IH]; simpl.
  - by intros _ ?%elem_of_nil.
  - intros [Hk' Hd]%NoDup_cons [[= -> ->]|Hin]%elem_of_cons.
    + by rewrite String.eqb_refl.
    + destruct (String.eqb_spec k k') as [->|Hne]; [|by apply IH].
      destruct Hk'. apply list_elem_of_fmap. by exists (k', v).
Qed.

Lemma dset_keys k v d :
  fst <$> dset k v d
  = match dget k d with
    | Some _ => fst <$> d
    | None => (fst <$> d) ++ [k]
    end.
Proof.
  induction d as [|[k' v'] d IH]; [done|]. cbn [dset dget].
  destruct (String.eqb_spec k k') as [->|Hne]; [done|].
  rewrite !fmap_cons, IH. by destruct (dget k d).
Qed.

Lemma dset_NoDup k v d : NoDup (fst <$> d) → NoDup (fst <$> dset k v d).
Proof.
  intros Hd. rewrite dset_keys. destruct (dget k d) eqn:Hk; [done|].
  apply NoDup_app. split; [done|]. split; [|apply NoDup_singleton].
  intros x Hx ->%list_elem_of_singleton. by apply dget_None in Hk.
Qed.

Lemma count_item_NoDup d item :
  NoDup (fst <$> d) → NoDup (fst <$> count_item d item).
Proof.
  intros Hd. unfold count_item.
  destruct (truthy _ && _); [by apply dset_NoDup|done].
Qed.

Lemma count_dependencies_run rs w :
  Forall analyzed rs →
  TestRunner.count_dependencies rs w = (Ok (foldl count_result [] rs), w).
Proof.
  intros Hrs. unfold TestRunner.count_dependencies.
  apply (for_each_ok analyzed count_result); [|done].
  intros dep_counts r w0 Hr.
  assert (Hinner : ∀ items acc w1,
             for_each items acc
               (λ (dep_counts : dict) (item : string * pyval),
                  let '(dep, found) := item in
                  if truthy found && negb (String.eqb dep "other")
                  then ret (dset dep
                              (VInt (match dget dep dep_counts with
                                     | Some v => TestRunner.count_of v
                                     | None => 0
                                     end + 1)) dep_counts)
                  else ret dep_counts) w1
             = (Ok (foldl count_item acc items), w1)).
  { intros items acc w1.
    apply (for_each_ok (λ _, True)); [|by apply Forall_true].
    intros acc' [dep found] w2 _. unfold count_item. cbn [fst snd].
    by destruct (truthy found && negb (String.eqb dep "other")). }
  destruct Hr; cbn [getitem dget result_of String.eqb Ascii.eqb Bool.eqb];
    rewrite bind_ret; cbn [py_items]; rewrite bind_ret; apply Hinner.
Qed.

Lemma count_at_nonneg tag d :
  (∀ tag v, dget tag d = Some v → ∃ n, v = VInt n ∧ 0 < n) →
  0 ≤ count_at tag d.
Proof.
  intros Hpos. unfold count_at. destruct (dget tag d) as [v|] eqn:Hv; [|done].
  destruct (Hpos _ _ Hv) as (n & -> & Hn). simpl. lia.
Qed.

Lemma count_item_at d t b tag :
  String.eqb t "other" = false →
  count_at tag (count_item d (t, VBool b))
  = count_at tag d + (if b && String.eqb tag t then 1 else 0).
Proof.
  intros Ht. unfold count_item. cbn [fst snd truthy]. rewrite Ht.
  destruct b; cbn [andb negb]; [|lia].
  unfold count_at at 1. rewrite dget_dset.
  destruct (String.eqb_spec tag t) as [->|Hne]; [|unfold count_at; lia].
  by unfold count_at.
Qed.

Lemma count_item_positive d t b :
  (∀ tag v, dget tag d = Some v → ∃ n, v = VInt n ∧ 0 < n) →
  ∀ tag v, dget tag (count_item d (t, VBool b)) = Some v →
           ∃ n, v = VInt n ∧ 0 < n.
Proof.
  intros Hpos tag v. unfold count_item. cbn [fst snd truthy].
  destruct (b && negb (String.eqb t "other")); [|apply Hpos].
  rewrite dget_dset. destruct (String.eqb tag t); [|apply Hpos].
  intros [= <-]. eexists. split; [done|].
  pose proof (count_at_nonneg t d Hpos) as Hge. unfold count_at in Hge. lia.
Qed.

Lemma count_item_other d l : count_item d ("other", VList l) = d.
Proof. unfold count_item. cbn [fst snd]. by destruct (truthy (VList l)). Qed.

(** Counting one result adds one to the count of each of its tags. *)
Lemma count_result_tallied k d r :
  tallied k d → analyzed r →
  tallied (λ tag, k tag + (if flagged tag r then 1 else 0)) (count_result d r).
Proof.
  intros (Hnd & Hpos & Hk) Hr.
  destruct Hr as [name ts out|name ts out|name ts text fs dir].
  - split; [done|]. split; [done|]. intros tag. cbn.
    rewrite Hk, Z.add_0_r. done.
  - split; [done|]. split; [done|]. intros tag. cbn.
    rewrite Hk, Z.add_0_r. done.
  - cbn [count_result result_of dget String.eqb Ascii.eqb Bool.eqb].
    unfold detected. cbn [foldl]. rewrite count_item_other.
    split; [by repeat apply count_item_NoDup|].
    split; [by repeat apply count_item_positive|].
    intros tag. rewrite !count_item_at by done. rewrite Hk.
    unfold flagged, get_truthy.
    cbn [result_of dget String.eqb Ascii.eqb Bool.eqb].
    case_bool_decide as Htag.
    + unfold tags in Htag.
      repeat (apply elem_of_cons in Htag as [->|Htag];
              [cbn; repeat (destruct (present _ _)); cbn; lia|]).
      by apply elem_of_nil in Htag.
    + assert (Hne : ∀ t, t ∈ tags → String.eqb tag t = false).
      { intros t Ht. apply String.eqb_neq. intros Heq. by rewrite Heq in Htag. }
      rewrite !Hne by (unfold tags; repeat first [by left | right]).
      rewrite !andb_false_r. lia.
Qed.

Lemma count_results_tallied rs k d :
  tallied k d → Forall analyzed rs →
  tallied (λ tag, k tag + tally tag rs) (foldl count_result d rs).
Proof.
  intros Hd Hrs. revert k d Hd.
  induction Hrs as [|r rs Hr Hrs IH]; intros k d Hd.
  - destruct Hd as (Hnd & Hpos & Hk). split; [done|]. split; [done|].
    intros tag. rewrite Hk. unfold tally. cbn. by rewrite Z.add_0_r.
  - cbn [foldl].
    destruct (IH _ _ (count_result_tallied k d r Hd Hr))
      as (Hnd & Hpos & Hk).
    split; [done|]. split; [done|]. intros tag. rewrite Hk.
    case_bool_decide; [|done].
    unfold tally. cbn [List.filter]. destruct (flagged tag r); cbn [length]; lia.
Qed.

(** [sorted(..., reverse=True)] keeps the items and orders them by
    count, largest first. *)
Lemma insert_desc_perm x l : TestRunner.insert_desc x l ≡ₚ x :: l.
Proof.
  induction l as [|y l IH]; [done|]. cbn [TestRunner.insert_desc].
  destruct (_ <? _); [|done]. rewrite IH. apply Permutation_swap.
Qed.

Lemma sorted_desc_perm d : TestRunner.sorted_desc d ≡ₚ d.
Proof.
  unfold TestRunner.sorted_desc. induction d as [|x d IH]; [done|].
  cbn [foldr]. by rewrite insert_desc_perm, IH.
Qed.

Lemma insert_desc_sorted x l :
  StronglySorted (λ a b, TestRunner.count_of b.2 ≤ TestRunner.count_of a.2) l →
  StronglySorted (λ a b, TestRunner.count_of b.2 ≤ TestRunner.count_of a.2)
    (TestRunner.insert_desc x l).
Proof.
  induction 1 as [|y l Hl IH Hy]; cbn [TestRunner.insert_desc].
  - repeat constructor.
  - destruct (Z.ltb_spec (TestRunner.count_of x.2) (TestRunner.count_of y.2)).
    + constructor; [done|]. rewrite insert_desc_perm.
      constructor; [lia|done].
    + constructor; [by constructor|]. constructor; [done|].
      eapply Forall_impl; [exact Hy|]. intros z Hz. cbn in *. lia.
Qed.

Lemma sorted_desc_sorted d :
  StronglySorted (λ a b, TestRunner.count_of b.2 ≤ TestRunner.count_of a.2)
    (TestRunner.sorted_desc d).
Proof.
  unfold TestRunner.sorted_desc. induction d as [|x d IH]; [constructor|].
  cbn [foldr]. by apply insert_desc_sorted.
Qed.

End Histogram.

(** X10.  For the results of [analyze_repo], [_aggregate_dependencies]
    returns the histogram of the tags: a tag is a key exactly when it
    was detected in some result, its value is the number of results
    it was detected in, [other] is never a key, no key comes twice and
    the items are in the order of their counts, largest first. *)
Theorem dependency_histogram (dir : string) (rs : list pyval) (w : World) :
  Forall analyzed rs →
  ∃ d,
    TestRunner._aggregate_dependencies (mkRunner dir rs) w = (Ok d, w)
    ∧ (∀ tag v, (tag, v) ∈ d
                ↔ tag ∈ tags ∧ v = VInt (tally tag rs) ∧ 0 < tally tag rs)
    ∧ NoDup (fst <$> d)
    ∧ StronglySorted
        (λ a b, TestRunner.count_of b.2 ≤ TestRunner.count_of a.2) d.
Proof.
  intros Hrs. unfold TestRunner._aggregate_dependencies. cbn [results].
  rewrite bind_run, count_dependencies_run by done.
  eexists. split; [reflexivity|].
  destruct (count_results_tallied rs (λ _, 0) [] ) as (Hnd & Hpos & Hk);
    [|done|].
  { split; [constructor|]. split; [done|]. intros tag. cbn.
    by destruct (bool_decide _). }
  set (d := foldl count_result [] rs) in *.
  assert (Hnd' : NoDup (fst <$> TestRunner.sorted_desc d)).
  { by rewrite sorted_desc_perm. }
  split; [|split; [done|apply sorted_desc_sorted]].
  intros tag v. rewrite sorted_desc_perm. split.
  - intros Hv%elem_of_dget; [|done].
    destruct (Hpos _ _ Hv) as (n & -> & Hn).
    specialize (Hk tag). unfold count_at in Hk. rewrite Hv in Hk.
    cbn in Hk. case_bool_decide; [|lia].
    rewrite Z.add_0_l in Hk. subst n. done.
  - intros (Htag & -> & Hn). apply dget_elem_of.
    specialize (Hk tag). rewrite bool_decide_eq_true_2 in Hk by done.
    rewrite Z.add_0_l in Hk. unfold count_at in Hk.
    destruct (dget tag d) as [v|] eqn:Hv; [|lia].
    destruct (Hpos _ _ Hv) as (n & -> & _). cbn in Hk. by subst n.
Qed.

Lemma dependency_histogram_witness :
  ∃ d,
    TestRunner._aggregate_dependencies (mkRunner "/t" Sample.analyzed_three)
      Sample.empty_world
    = (Ok d, Sample.empty_world)
    ∧ ("node", VInt 2) ∈ d
    ∧ ("python", VInt 1) ∈ d
    ∧ (∀ v, ("other", v) ∉ d)
    ∧ (∀ v, ("rust", v) ∉ d).
Proof.
  destruct (dependency_histogram "/t" Sample.analyzed_three
              Sample.empty_world) as (d & Hrun & Hd & _).
  - unfold Sample.analyzed_three. repeat constructor.
  - exists d. split; [exact Hrun|].
    split; [|split; [|split]].
    + apply Hd. split; [unfold tags; repeat first [by left | right]|].
      split; vm_compute; reflexivity.
    + apply Hd. split; [unfold tags; repeat first [by left | right]|].
      split; vm_compute; reflexivity.
    + intros v [Htag _]%Hd. revert Htag.
      apply (bool_decide_unpack _). vm_compute. exact I.
    + intros v (_ & _ & Hpos)%Hd. by vm_compute in Hpos.
Defined.

(** ** The verdict of the live variant *)

Section LiveVerdict.

Variable E : Env.

Lemma alternative_found alt :
  alt ∈ LiveTestRunner.readme_alternatives →
  String.eqb (alt +:+ " found") "No README found" = false.
Proof.
  unfold LiveTestRunner.readme_alternatives. intros Halt.
  repeat (apply elem_of_cons in Halt as [->|Halt]; [done|]).
  by apply elem_of_nil in Halt.
Qed.

(** [test_runthis_cli] in closed form. *)
Lemma test_runthis_cli_run self repo w :
  let repo_dir := repo_path (test_dir self) (name repo) in
  let '(ok, text, fs, evs) :=
    clone_stage E (test_dir self) (name repo) (w_fs w) in
  ∃ w',
    LiveTestRunner.test_runthis_cli E self repo w
    = (Ok (if ok : bool
           then tested repo (clock E (w_tick w)) (live_readme fs repo_dir)
                  (live_detected fs repo_dir)
           else not_cloned repo (clock E (w_tick w))), w').
Proof.
  intros repo_dir.
  unfold LiveTestRunner.test_runthis_cli.
  rewrite bind_print. unfold bind at 1. unfold now at 1.
  cbn [w_fs w_tick w_out after].
  rewrite bind_run, live_clone_run. cbn [w_fs w_tick w_out].
  destruct (clone_stage _ _ _ _) as [[[[] text] fs] evs];
    [|by eexists].
  cbn [negb]. fold repo_dir. rewrite bind_path_exists. cbn [w_fs after].
  unfold live_readme. cbn [find].
  destruct (present fs _).
  - mnorm. rewrite bind_ret, bind_run, detect_run.
    destruct (live_detected _ _) as [|dep deps']; by eexists.
  - mnorm. rewrite bind_run, first_existing_run. cbn [w_fs].
    destruct (find _ LiveTestRunner.readme_alternatives) as [alt|] eqn:Halt.
    + apply find_some in Halt as [Halt%list_elem_of_In _].
      mnorm. rewrite bind_ret, bind_run, detect_run.
      destruct (live_detected _ _) as [|dep deps'];
        cbn -[path_join repo_path append];
        rewrite alternative_found by done;
        cbn -[path_join repo_path append];
        rewrite ?found_not_empty; cbn -[path_join repo_path append];
        by eexists.
    + mnorm. rewrite bind_ret, bind_run, detect_run.
      destruct (live_detected _ _) as [|dep deps']; by eexists.
Qed.

Lemma find_existsb {A} (p : A → bool) l :
  existsb p l = bool_decide (is_Some (find p l)).
Proof.
  induction l as [|x l IH]; [done|]. cbn [existsb find].
  destruct (p x); [done|]. by rewrite IH.
Qed.

Lemma live_detected_existsb fs repo_dir :
  existsb (λ m, present fs (repo_dir </> m)) live_manifests
  = negb (bool_decide (live_detected fs repo_dir = [])).
Proof.
  unfold live_manifests, live_detected.
  induction LiveTestRunner.deps as [|[t ms] entries IH]; [done|].
  cbn [fmap list_fmap concat fst snd]. rewrite existsb_app, IH, find_existsb.
  destruct (find _ ms); [done|]. done.
Qed.

End LiveVerdict.

(** X11.  [test_runthis_cli] always returns a result.  It is a pass
    exactly when the clone succeeds, a README exists and a manifest
    exists; otherwise the reason is the failed clone, or else the AI
    failure when no manifest exists, or else the missing README.
    [would_ask_ai] stays [None] exactly when the clone failed. *)
Theorem live_verdict (E : Env) (self : runner) (repo : Repo) (w : World)
    (ok : bool) (text : string) (fs : gmap string fnode) (evs : list event) :
  let repo_dir := repo_path (test_dir self) (name repo) in
  let readme :=
    existsb (λ n, present fs (repo_dir </> n))
            ("README.md" :: LiveTestRunner.readme_alternatives) in
  let deps := existsb (λ m, present fs (repo_dir </> m)) live_manifests in
  clone_stage E (test_dir self) (name repo) (w_fs w) = (ok, text, fs, evs) →
  ∃ r w',
    LiveTestRunner.test_runthis_cli E self repo w = (Ok r, w')
    ∧ live_result (VDict r)
    ∧ dget "failure_mode" r = Some (VBool (negb (ok && readme && deps)))
    ∧ dget "failure_reason" r
      = Some (if negb ok then VStr ("Failed to clone " +:+ name repo)
              else if negb deps
                   then VStr "AI failure mode - no clear instructions found"
              else if negb readme
                   then VStr "No README found - runthis would exit with code 1"
              else VNone)
    ∧ (dget "would_ask_ai" r = Some VNone ↔ ok = false).
Proof.
  intros repo_dir readme deps Hclone.
  pose proof (test_runthis_cli_run E self repo w) as Hrun.
  cbv zeta in Hrun. rewrite Hclone in Hrun. destruct Hrun as [w' Hrun].
  eexists _, w'. split; [exact Hrun|].
  subst readme deps. fold repo_dir.
  rewrite live_detected_existsb, find_existsb. fold (live_readme fs repo_dir).
  destruct ok.
  - split; [constructor|].
    destruct (live_detected fs repo_dir) as [|dep deps'],
             (live_readme fs repo_dir) as [n|]; by repeat split.
  - split; [constructor|]. by repeat split.
Qed.

Lemma live_verdict_witness :
  ∃ r w',
    LiveTestRunner.test_runthis_cli Sample.env_fail Sample.self Sample.repo
      (Sample.world_of Sample.fs_readme) = (Ok r, w')
    ∧ dget "failure_reason" r
      = Some (VStr "AI failure mode - no clear instructions found").
Proof.
  destruct (live_verdict Sample.env_fail Sample.self Sample.repo
              (Sample.world_of Sample.fs_readme)
              true "Already cloned" Sample.fs_readme [EExists "/t/repos/o_r"])
    as (r & w' & Hrun & _ & _ & Hreason & _).
  - vm_compute. reflexivity.
  - exists r, w'. split; [exact Hrun|]. exact Hreason.
Defined.



(** ** The report of the live variant *)

Section LiveReport.

Variable E : Env.

Lemma in_failure_mode_run r w :
  live_result r → LiveTestRunner.in_failure_mode r w = (Ok (failing r), w).
Proof. by destruct 1. Qed.

Lemma has_deps_run r w :
  live_result r → ∃ b, LiveTestRunner.has_deps r w = (Ok b, w).
Proof.
  destruct 1 as [|repo ts readme [|dep deps']]; by eexists.
Qed.

Lemma count_filter (b : pyval → bool) rs a :
  foldl (λ n r, if b r then n + 1 else n) a rs
  = a + Z.of_nat (length (List.filter b rs)).
Proof.
  revert a. induction rs as [|r rs IH]; intros a; cbn [foldl List.filter].
  - simpl. lia.
  - rewrite IH. destruct (b r); cbn [length]; lia.
Qed.

Lemma keep_filter (b : pyval → bool) rs (kept : list pyval) :
  foldl (λ kept r, if b r then kept ++ [r] else kept) kept rs
  = kept ++ List.filter b rs.
Proof.
  revert kept. induction rs as [|r rs IH]; intros kept; cbn [foldl List.filter].
  - by rewrite app_nil_r.
  - rewrite IH. destruct (b r); [|done]. by rewrite <- app_assoc.
Qed.

Lemma filter_if_run (cond : pyval → M bool) (b : pyval → bool)
    (P : pyval → Prop) rs w :
  (∀ r w, P r → cond r w = (Ok (b r), w)) →
  Forall P rs →
  filter_if cond rs w = (Ok (List.filter b rs), w).
Proof.
  intros Hcond Hrs. unfold filter_if.
  rewrite (for_each_ok P (λ kept r, if b r then kept ++ [r] else kept));
    [|by intros kept r w0 Hr; rewrite bind_run, Hcond|done].
  by rewrite keep_filter.
Qed.

Lemma count_deps_ok rs w :
  Forall live_result rs →
  ∃ n, count_if LiveTestRunner.has_deps rs w = (Ok n, w).
Proof.
  intros Hrs. unfold count_if. generalize 0.
  induction Hrs as [|r rs Hr Hrs IH]; intros n; [by eexists|].
  cbn [for_each]. rewrite bind_assoc, bind_run.
  destruct (has_deps_run r w Hr) as [b ->]. rewrite bind_ret. apply IH.
Qed.

(** [generate_report] of the live variant, for the results of the
    loop. *)
Lemma live_generate_report_run dir rs w :
  Forall live_result rs →
  ∃ ts rate s1 s2 w',
    LiveTestRunner.generate_report E (mkRunner dir rs) w
    = (Ok [ ("timestamp", VStr ts);
            ("total_repos", VInt (Z.of_nat (length rs)));
            ("failures", VInt (Z.of_nat (length (List.filter failing rs))));
            ("success_rate", rate);
            ("failure_modes", VList (List.filter failing rs));
            ("results", VList rs);
            ("summary",
             VDict [ ("would_clone_all", VBool true);
                     ("would_readme_detection",
                      VStr "100% (all repos have READMEs)");
                     ("would_dependency_detection", VStr s1);
                     ("would_failure_handling", VStr s2) ]) ], w').
Proof.
  intros Hrs. unfold LiveTestRunner.generate_report. cbn [results test_dir].
  rewrite bind_run,
    (count_if_run LiveTestRunner.in_failure_mode failing live_result)
    by (done || apply in_failure_mode_run).
  mnorm. unfold bind at 1. unfold now at 1.
  set (w1 := mkWorld (w_fs w) (S (w_tick w)) (w_out w)).
  mnorm. rewrite bind_run,
    (filter_if_run LiveTestRunner.in_failure_mode failing live_result)
    by (done || apply in_failure_mode_run).
  mnorm. rewrite bind_run.
  destruct (count_deps_ok rs w1 Hrs) as [n ->].
  mnorm. rewrite bind_write_text, count_filter, Z.add_0_l.
  by eexists _, _, _, _, _.
Qed.

Lemma print_failure_run r w :
  live_result r →
  ∃ w',
    LiveTestRunner.print_failure E r w
    = (if asked r then Ok tt
       else Raise (AttributeError "object has no attribute 'get'"), w').
Proof.
  destruct 1 as [|repo ts readme [|dep deps']];
    unfold LiveTestRunner.print_failure;
    cbn -[append LiveTestRunner.expected_response Str.join];
    by eexists.
Qed.

Lemma print_failures_run fs w :
  Forall live_result fs →
  ∃ w',
    for_each fs tt (λ _ failure, LiveTestRunner.print_failure E failure) w
    = (if forallb asked fs then Ok tt
       else Raise (AttributeError "object has no attribute 'get'"), w').
Proof.
  intros Hfs. revert w. induction Hfs as [|r fs Hr Hfs IH]; intros w.
  - by eexists.
  - cbn [for_each forallb]. rewrite bind_run.
    destruct (print_failure_run r w Hr) as [w1 ->].
    destruct (asked r); [apply IH|by eexists].
Qed.

(** A result whose clone failed is in failure mode. *)
Lemma asked_failing rs :
  Forall live_result rs →
  forallb asked (List.filter failing rs) = forallb asked rs.
Proof.
  induction 1 as [|r rs Hr Hrs IH]; [done|]. cbn [List.filter forallb].
  destruct Hr as [|repo ts readme deps].
  - done.
  - destruct (failing _); cbn [forallb]; by rewrite IH.
Qed.

Lemma test_runthis_cli_live self repo w :
  ∃ r w',
    LiveTestRunner.test_runthis_cli E self repo w = (Ok r, w')
    ∧ live_result (VDict r)
    ∧ dget "repo" r = Some (VStr (name repo)).
Proof.
  pose proof (test_runthis_cli_run E self repo w) as Hrun. cbv zeta in Hrun.
  destruct (clone_stage _ _ _ _) as [[[[] text] fs] evs];
    destruct Hrun as [w' ->]; eexists _, _;
    (split; [reflexivity|]); split; (constructor || done).
Qed.

Lemma test_loop_live repos self w :
  ∃ rs w',
    LiveTestRunner.test_loop E self repos w
    = (Ok (mkRunner (test_dir self) (results self ++ rs)), w')
    ∧ Forall live_result rs
    ∧ Forall2 (λ repo r, repo_of r = Some (VStr (name repo))) repos rs.
Proof.
  unfold LiveTestRunner.test_loop.
  revert self w. induction repos as [|repo repos IH]; intros self w.
  - exists [], w. rewrite app_nil_r. by destruct self.
  - cbn [for_each]. rewrite !bind_assoc, bind_run.
    destruct (test_runthis_cli_live self repo w)
      as (r & w1 & -> & Hr & Hname).
    mnorm. rewrite bind_write_text.
    mnorm. rewrite bind_run, in_failure_mode_run by done.
    mnorm. rewrite bind_print. mnorm. rewrite bind_ret.
    match goal with
    | |- context [for_each repos ?s _ ?w2] =>
        destruct (IH s w2) as (rs & w' & -> & Hrs & Hnames)
    end.
    exists (VDict r :: rs), w'. cbn [test_dir results append_result].
    rewrite <- app_assoc. split; [done|]. split; by constructor.
Qed.

Lemma run_live_tests_on_run dir repos w :
  ∃ rs ts rate s1 s2 w',
    LiveTestRunner.run_live_tests_on E repos (mkRunner dir []) w
    = (Ok (mkRunner dir rs,
           [ ("timestamp", VStr ts);
             ("total_repos", VInt (Z.of_nat (length rs)));
             ("failures", VInt (Z.of_nat (length (List.filter failing rs))));
             ("success_rate", rate);
             ("failure_modes", VList (List.filter failing rs));
             ("results", VList rs);
             ("summary",
              VDict [ ("would_clone_all", VBool true);
                      ("would_readme_detection",
                       VStr "100% (all repos have READMEs)");
                      ("would_dependency_detection", VStr s1);
                      ("would_failure_handling", VStr s2) ]) ]), w')
    ∧ Forall live_result rs
    ∧ Forall2 (λ repo r, repo_of r = Some (VStr (name repo))) repos rs.
Proof.
  unfold LiveTestRunner.run_live_tests_on.
  rewrite bind_run, setup_run. mnorm. rewrite !bind_print. mnorm.
  rewrite bind_run.
  match goal with
  | |- context [LiveTestRunner.test_loop E ?s repos ?w1] =>
      destruct (test_loop_live repos s w1) as (rs & w2 & -> & Hrs & Hnames)
  end.
  cbn [test_dir results app]. mnorm. rewrite bind_run.
  destruct (live_generate_report_run dir rs w2 Hrs)
    as (ts & rate & s1 & s2 & w3 & ->).
  by eexists rs, ts, rate, s1, s2, w3.
Qed.

Lemma live_print_report_run self ts n k rate fs rs s1 s2 w :
  Forall live_result fs →
  ∃ w',
    LiveTestRunner.print_report E self
      [ ("timestamp", VStr ts);
        ("total_repos", VInt n);
        ("failures", VInt k);
        ("success_rate", rate);
        ("failure_modes", VList fs);
        ("results", VList rs);
        ("summary",
         VDict [ ("would_clone_all", VBool true);
                 ("would_readme_detection",
                  VStr "100% (all repos have READMEs)");
                 ("would_dependency_detection", VStr s1);
                 ("would_failure_handling", VStr s2) ]) ] w
    = (if forallb asked fs then Ok tt
       else Raise (AttributeError "object has no attribute 'get'"), w').
Proof.
  intros Hfs. unfold LiveTestRunner.print_report.
  destruct fs as [|f fs].
  - cbn -[append times nl]. by eexists.
  - repeat first [ rewrite bind_print
                 | rewrite bind_assoc
                 | rewrite bind_ret
                 | progress (unfold getitem at 1;
                             cbn [dget String.eqb Ascii.eqb Bool.eqb])
                 | progress (unfold py_items at 1)
                 | progress (unfold py_iter at 1)
                 | progress (cbn [for_each truthy fst snd]) ].
    match goal with |- ∃ w', _ ?w1 = _ => generalize w1 end. intros w0.
    apply Forall_cons in Hfs as [Hf Hfs]. cbn [forallb].
    rewrite bind_run. destruct (print_failure_run f w0 Hf) as [w1 ->].
    destruct (asked f); [|by eexists]. rewrite bind_run.
    destruct (print_failures_run fs w1 Hfs) as [w2 ->].
    destruct (forallb asked fs); by eexists.
Qed.

End LiveReport.

(** X13.  The report [run_live_tests] returns holds one result for
    each repository, in order; [total_repos] is their number,
    [failure_modes] the results in failure mode, in order, and
    [failures] the length of that list, at most [total_repos]. *)
Theorem live_report_counts_failures
    (E : Env) (dir : string) (repos : list Repo) (w : World)
    (self' : runner) (report : dict) (w' : World) :
  LiveTestRunner.run_live_tests_on E repos (mkRunner dir []) w
  = (Ok (self', report), w') →
  let rs := results self' in
  Forall2 (λ repo r, repo_of r = Some (VStr (name repo))) repos rs
  ∧ dget "results" report = Some (VList rs)
  ∧ dget "total_repos" report = Some (VInt (Z.of_nat (length repos)))
  ∧ dget "failure_modes" report = Some (VList (List.filter failing rs))
  ∧ dget "failures" report
    = Some (VInt (Z.of_nat (length (List.filter failing rs))))
  ∧ (length (List.filter failing rs) ≤ length repos)%nat.
Proof.
  destruct (run_live_tests_on_run E dir repos w)
    as (rs & ts & rate & s1 & s2 & w1 & -> & Hrs & Hnames).
  intros [= <- <- <-]. cbn [results].
  assert (Hlen : length rs = length repos).
  { symmetry. by eapply Forall2_length. }
  split; [done|]. rewrite <- Hlen. repeat split.
  pose proof (List.filter_length failing rs). lia.
Qed.

Lemma live_report_counts_failures_witness :
  ∃ self' report,
    returned (LiveTestRunner.run_live_tests_on Sample.env_fail
                [Sample.repo; mkRepo "x/y" "Go"] (mkRunner "/t" [])
                (Sample.world_of Sample.fs_makefile))
    = Some (self', report)
    ∧ dget "total_repos" report = Some (VInt 2)
    ∧ dget "failures" report = Some (VInt 2)
    ∧ dget "failure_modes" report = Some (VList (results self')).
Proof.
  destruct (LiveTestRunner.run_live_tests_on Sample.env_fail
              [Sample.repo; mkRepo "x/y" "Go"] (mkRunner "/t" [])
              (Sample.world_of Sample.fs_makefile))
    as [[[self' report]|e] w'] eqn:Hrun.
  - exists self', report. split; [done|].
    destruct (live_report_counts_failures _ _ _ _ _ _ _ Hrun)
      as (_ & _ & Htotal & Hmodes & Hfailures & _).
    rewrite Htotal, Hmodes, Hfailures.
    vm_compute in Hrun. injection Hrun as <- _ _.
    repeat split.
  - exfalso. vm_compute in Hrun. discriminate Hrun.
Defined.

(** X14.  [main] of the live variant returns 0 when every test got as
    far as the question to the AI, whatever failed afterwards.  When
    the clone of some repository failed, its [would_ask_ai] is [None]
    and [print_report] raises [AttributeError]: [main] returns
    nothing. *)
Theorem live_main_needs_every_clone
    (E : Env) (repos : list Repo) (w : World) :
  ∃ rs report w',
    LiveTestRunner.run_live_tests_on E repos
      (mkRunner "/tmp/runthis_live_tests" []) w
    = (Ok (mkRunner "/tmp/runthis_live_tests" rs, report), w')
    ∧ Forall live_result rs
    ∧ fst (LiveTestRunner.main_on E repos w)
      = if forallb asked rs then Ok 0
        else Raise (AttributeError "object has no attribute 'get'").
Proof.
  destruct (run_live_tests_on_run E "/tmp/runthis_live_tests" repos w)
    as (rs & ts & rate & s1 & s2 & w' & Hrun & Hrs & Hnames).
  eexists _, _, _. split; [exact Hrun|]. split; [done|].
  unfold LiveTestRunner.main_on. rewrite bind_run, Hrun.
  cbv beta iota. rewrite bind_run.
  assert (Hfs : Forall live_result (List.filter failing rs)).
  { apply Forall_forall. intros r [Hr _]%list_elem_of_In%filter_In.
    rewrite Forall_forall in Hrs. apply Hrs. by apply list_elem_of_In. }
  destruct (live_print_report_run E (mkRunner "/tmp/runthis_live_tests" rs)
              ts (Z.of_nat (length rs))
              (Z.of_nat (length (List.filter failing rs))) rate
              (List.filter failing rs) rs s1 s2 w' Hfs) as [w2 ->].
  rewrite (asked_failing rs Hrs). by destruct (forallb asked rs).
Qed.

(** ** The expected response of the live variant *)

(** X15.  The install and run commands of [expected_response] are
    those of the first of python, node and rust that has a manifest in
    the directory; with none of the three, whatever else was detected,
    the install command is [make] and the run command is [Unknown],
    or [./bin/gog] for [steipete/gogcli]. *)
Theorem expected_response_by_ecosystem
    (repo : Repo) (fs : gmap string fnode) (repo_dir : string) :
  let has m := present fs (repo_dir </> m) in
  let python := has "requirements.txt" || has "Pipfile"
                || has "pyproject.toml" || has "setup.py" in
  let response :=
    LiveTestRunner.expected_response repo (live_detected fs repo_dir) in
  dget "install" response
  = Some (VStr (if python then "pip install -r requirements.txt"
                else if has "package.json" then "npm install"
                else if has "Cargo.toml" then "cargo build"
                else "make"))
  ∧ dget "run" response
    = Some (VStr (if python then "python main.py"
                  else if has "package.json" then "npm start"
                  else if has "Cargo.toml" then "cargo run"
                  else if Str.contains "steipete/gogcli" (name repo)
                       then "./bin/gog"
                  else "Unknown")).
Proof.
  intros has python response. subst has python response.
  unfold live_detected, LiveTestRunner.deps.
  cbn [fmap list_fmap concat fst snd find].
  repeat match goal with
         | |- context [present ?fs ?p] =>
             let b := fresh "b" in
             generalize (present fs p); intros b
         end.
  unfold LiveTestRunner.expected_response.
  cbn [dget String.eqb Ascii.eqb Bool.eqb].
  generalize (Str.contains "steipete/gogcli" (name repo)). intros gog.
  repeat match goal with b : bool |- _ => destruct b end;
    vm_compute; split; reflexivity.
Qed.
